(** * Domain trust report (whoisChecker.js, DNS analyzer part)

    A shallow embedding of [generateTrustReport] and of the front end
    [startAnalyzer] that calls it.  The JavaScript function keeps two
    accumulators, [totalScore] and [report], calls the promise API of
    [node:dns] six times (plus one reverse lookup per address in the A
    check) and finally prints the report.  Here the accumulators, the
    printed lines and the list of DNS queries issued are the fields of an
    explicit run state threaded through a small state monad; a rejected
    promise caught by [try]/[catch] is the [Rejected] case of a result. *)

From Stdlib Require Import ZArith String Ascii List Bool Lia DecimalString.
Import ListNotations.
Open Scope string_scope.
Open Scope Z_scope.

(** ** JavaScript string and array primitives used by the analyzer *)

Module Js.

(** [s.startsWith(p)] *)
Fixpoint startsWith (s p : string) : bool :=
  match p with
  | EmptyString => true
  | String c p' =>
      match s with
      | EmptyString => false
      | String d s' => Ascii.eqb c d && startsWith s' p'
      end
  end.

(** [s.includes(p)] *)
Fixpoint includes (s p : string) : bool :=
  startsWith s p ||
  match s with
  | EmptyString => false
  | String _ s' => includes s' p
  end.

(** Lower-casing of one code unit.  DNS host names are ASCII; bytes
    outside [A-Z] are left as they are. *)
Definition lowerChar (c : ascii) : ascii :=
  let n := nat_of_ascii c in
  if (Nat.leb 65 n && Nat.leb n 90)%bool then ascii_of_nat (n + 32) else c.

(** [s.toLowerCase()] *)
Fixpoint toLowerCase (s : string) : string :=
  match s with
  | EmptyString => EmptyString
  | String c s' => String (lowerChar c) (toLowerCase s')
  end.

(** [xs.join(sep)] *)
Fixpoint join (sep : string) (xs : list string) : string :=
  match xs with
  | [] => ""
  | [x] => x
  | x :: rest => x ++ sep ++ join sep rest
  end.

(** [`${n}`] for an array length *)
Definition showNat (n : nat) : string :=
  NilZero.string_of_uint (Nat.to_uint n).

(** [`${z}`] for an integer score *)
Definition showInt (z : Z) : string :=
  NilZero.string_of_int (Z.to_int z).

(** [a || b] on strings: the empty string is falsy. *)
Definition orElse (a b : string) : string :=
  if String.eqb a "" then b else a.

End Js.

(** ** The scoring table *)

Record RuleOutcome := { score : Z; message : string }.

Module SCORE_CRITERIA.
Module SPF.
Definition exists_ : RuleOutcome :=
  {| score := 10; message := "SPF 레코드가 존재합니다." |}.
Definition not_exists : RuleOutcome :=
  {| score := -10; message := "SPF 레코드가 존재하지 않습니다." |}.
End SPF.
Module DMARC.
Definition exists_ : RuleOutcome :=
  {| score := 10; message := "DMARC 레코드가 존재합니다." |}.
Definition not_exists : RuleOutcome :=
  {| score := -10; message := "DMARC 레코드가 존재하지 않습니다." |}.
End DMARC.
Module NS.
Definition reliable : RuleOutcome :=
  {| score := 10; message := "신뢰할 수 있는 네임서버를 사용합니다." |}.
Definition unreliable : RuleOutcome :=
  {| score := -10;
     message := "무료 또는 신뢰도가 낮은 네임서버를 사용합니다." |}.
End NS.
Module CNAME.
Definition normal : RuleOutcome :=
  {| score := 5;
     message := "CNAME 레코드가 정상적으로 연결되어 있습니다." |}.
Definition deprecated : RuleOutcome :=
  {| score := -15;
     message := "CNAME 레코드가 폐기된 서비스에 연결된 것으로 보입니다." |}.
End CNAME.
Module A.
Definition stable : RuleOutcome :=
  {| score := 5;
     message := "안정적인 IP 주소를 사용합니다 (클라우드 서비스)." |}.
Definition unstable : RuleOutcome :=
  {| score := -10;
     message := "IP 주소가 불안정하거나 Fast Flux로 의심됩니다." |}.
End A.
Module MX.
Definition exists_ : RuleOutcome :=
  {| score := 5; message := "MX 레코드가 존재합니다." |}.
Definition not_exists : RuleOutcome :=
  {| score := -5; message := "MX 레코드가 존재하지 않습니다." |}.
End MX.
End SCORE_CRITERIA.

Definition RELIABLE_NS_PROVIDERS : list string :=
  ["cloudflare"; "aws"; "azure"; "google"].
Definition RELIABLE_IP_PROVIDERS : list string :=
  ["amazonaws"; "azure"; "google"].

(** ** The resolver ([dns.promises]) *)

(** The error object of a rejected lookup: the analyzer reads [error.code]
    and [error.message] only. *)
Record DnsError := { code : string; errMessage : string }.

(** A settled promise: fulfilled with a value or rejected with an error. *)
Inductive Settled (T : Type) : Type :=
| Fulfilled (value : T)
| Rejected (error : DnsError).
Arguments Fulfilled {T} value.
Arguments Rejected {T} error.

Record MxRecord := { exchange : string; priority : nat }.

(** The six lookups the analyzer uses.  An answer is a function of the
    name asked. *)
Record Resolver := {
  resolveTxt : string -> Settled (list (list string));
  resolveNs : string -> Settled (list string);
  resolveCname : string -> Settled (list string);
  resolve4 : string -> Settled (list string);
  resolveMx : string -> Settled (list MxRecord);
  reverse : string -> Settled (list string)
}.

(** One entry per call made on the resolver. *)
Inductive Query :=
| QTxt (name : string)
| QNs (name : string)
| QCname (name : string)
| Q4 (name : string)
| QMx (name : string)
| QReverse (ip : string).

Definition isReverse (q : Query) : bool :=
  match q with QReverse _ => true | _ => false end.

(** The three failure classes of the specification, read off [error.code]
    the way the [catch] blocks test it. *)
Definition isENODATA (e : DnsError) : bool := String.eqb (code e) "ENODATA".
Definition isENOTFOUND (e : DnsError) : bool := String.eqb (code e) "ENOTFOUND".
Definition isTransient (e : DnsError) : bool :=
  negb (isENODATA e) && negb (isENOTFOUND e).

(** ** The run state and its monad *)

Record Run := {
  totalScore : Z;
  report : list string;
  queries : list Query;
  console : list string
}.

Definition start : Run :=
  {| totalScore := 0; report := []; queries := []; console := [] |}.

Definition M (T : Type) : Type := Run -> T * Run.

Definition ret {T} (x : T) : M T := fun s => (x, s).
Definition bind {T U} (m : M T) (k : T -> M U) : M U :=
  fun s => let (x, s') := m s in k x s'.

Notation "x <- m ;; k" := (bind m (fun x => k))
  (at level 61, m at next level, right associativity).
Notation "m ;; k" := (bind m (fun _ => k))
  (at level 61, right associativity).

(** [totalScore += d] *)
Definition addScore (d : Z) : M unit := fun s =>
  (tt, {| totalScore := totalScore s + d; report := report s;
          queries := queries s; console := console s |}).

(** [report.push(line)] *)
Definition push (line : string) : M unit := fun s =>
  (tt, {| totalScore := totalScore s; report := report s ++ [line];
          queries := queries s; console := console s |}).

(** [console.log(line)] *)
Definition log (line : string) : M unit := fun s =>
  (tt, {| totalScore := totalScore s; report := report s;
          queries := queries s; console := console s ++ [line] |}).

(** [await dns.<lookup>(name)]: the call is recorded, its settlement is
    handed to the [try]/[catch] that surrounds it. *)
Definition ask {T} (q : Query) (answer : Settled T) : M (Settled T) := fun s =>
  (answer, {| totalScore := totalScore s; report := report s;
              queries := queries s ++ [q]; console := console s |}).

Fixpoint mapM {T U} (f : T -> M U) (xs : list T) : M (list U) :=
  match xs with
  | [] => ret []
  | x :: rest => y <- f x ;; ys <- mapM f rest ;; ret (y :: ys)
  end.

Fixpoint forEach {T} (f : T -> M unit) (xs : list T) : M unit :=
  match xs with
  | [] => ret tt
  | x :: rest => f x ;; forEach f rest
  end.

Definition exec {T} (m : M T) (s : Run) : Run := snd (m s).

(** ** The analyzer *)

(** What [dns.reverse(ip).catch(() => '')] settles to: the host names of a
    successful reverse lookup, or the empty string put in place of a
    failed one. *)
Inductive ReverseLookup :=
| Ptr (hostnames : list string)
| PtrFailed.

(** [ptr[0]]: indexing the empty string, like indexing an empty array,
    gives [undefined]. *)
Definition first (ptr : ReverseLookup) : option string :=
  match ptr with
  | Ptr (h :: _) => Some h
  | Ptr [] => None
  | PtrFailed => None
  end.

(** [ptr[0] && ptr[0].toLowerCase().includes(provider)] as a condition:
    [undefined] and the empty string are falsy. *)
Definition firstIncludes (provider : string) (ptr : ReverseLookup) : bool :=
  match first ptr with
  | Some h => negb (String.eqb h "") && Js.includes (Js.toLowerCase h) provider
  | None => false
  end.

(** [reverseLookups.flat()]: an array is spliced in, the empty string of a
    failed lookup stays as one element. *)
Definition flat (reverseLookups : list ReverseLookup) : list string :=
  flat_map (fun ptr => match ptr with Ptr hs => hs | PtrFailed => [""] end)
           reverseLookups.

Definition isStableIp (reverseLookups : list ReverseLookup) : bool :=
  existsb (fun ptr =>
             existsb (fun provider => firstIncludes provider ptr)
                     RELIABLE_IP_PROVIDERS)
          reverseLookups.

Section Analyzer.

Variable dns : Resolver.

(** 1. SPF *)
Definition checkSPF (domain : string) : M unit :=
  r <- ask (QTxt domain) (resolveTxt dns domain) ;;
  match r with
  | Fulfilled spfRecords =>
      let hasSpf :=
        existsb (fun record => Js.startsWith (Js.join "" record) "v=spf1")
                spfRecords in
      if hasSpf then
        addScore (score SCORE_CRITERIA.SPF.exists_) ;;
        push ("✅ [+10] " ++ message SCORE_CRITERIA.SPF.exists_)
      else
        addScore (score SCORE_CRITERIA.SPF.not_exists) ;;
        push ("❌ [-10] " ++ message SCORE_CRITERIA.SPF.not_exists)
  | Rejected error =>
      if isENODATA error || isENOTFOUND error then
        addScore (score SCORE_CRITERIA.SPF.not_exists) ;;
        push ("❌ [-10] " ++ message SCORE_CRITERIA.SPF.not_exists)
      else
        push ("⚠️ [0] SPF 레코드 확인 중 오류 발생: " ++ errMessage error)
  end.

(** 2. DMARC *)
Definition checkDMARC (domain : string) : M unit :=
  r <- ask (QTxt ("_dmarc." ++ domain))
           (resolveTxt dns ("_dmarc." ++ domain)) ;;
  match r with
  | Fulfilled dmarcRecords =>
      let hasDmarc :=
        existsb (fun record => Js.startsWith (Js.join "" record) "v=DMARC1")
                dmarcRecords in
      if hasDmarc then
        addScore (score SCORE_CRITERIA.DMARC.exists_) ;;
        push ("✅ [+10] " ++ message SCORE_CRITERIA.DMARC.exists_)
      else
        addScore (score SCORE_CRITERIA.DMARC.not_exists) ;;
        push ("❌ [-10] " ++ message SCORE_CRITERIA.DMARC.not_exists)
  | Rejected error =>
      if isENODATA error || isENOTFOUND error then
        addScore (score SCORE_CRITERIA.DMARC.not_exists) ;;
        push ("❌ [-10] " ++ message SCORE_CRITERIA.DMARC.not_exists)
      else
        push ("⚠️ [0] DMARC 레코드 확인 중 오류 발생: " ++ errMessage error)
  end.

(** 3. NS *)
Definition checkNS (domain : string) : M unit :=
  r <- ask (QNs domain) (resolveNs dns domain) ;;
  match r with
  | Fulfilled nsRecords =>
      let isReliable :=
        existsb (fun ns =>
                   existsb (fun provider =>
                              Js.includes (Js.toLowerCase ns) provider)
                           RELIABLE_NS_PROVIDERS)
                nsRecords in
      if isReliable then
        addScore (score SCORE_CRITERIA.NS.reliable) ;;
        push ("✅ [+10] " ++ message SCORE_CRITERIA.NS.reliable
              ++ " (" ++ Js.join ", " nsRecords ++ ")")
      else
        addScore (score SCORE_CRITERIA.NS.unreliable) ;;
        push ("❌ [-10] " ++ message SCORE_CRITERIA.NS.unreliable
              ++ " (" ++ Js.join ", " nsRecords ++ ")")
  | Rejected error =>
      push ("⚠️ [0] NS 레코드 확인 중 오류 발생: " ++ errMessage error)
  end.

(** 4. CNAME of the www subdomain *)
Definition checkCNAME (domain : string) : M unit :=
  r <- ask (QCname ("www." ++ domain)) (resolveCname dns ("www." ++ domain)) ;;
  match r with
  | Fulfilled _ =>
      addScore (score SCORE_CRITERIA.CNAME.normal) ;;
      push ("✅ [+5] " ++ message SCORE_CRITERIA.CNAME.normal)
  | Rejected error =>
      if isENODATA error then
        push "ℹ️ [0] www 서브도메인에 CNAME 레코드가 없습니다. (A 레코드 직접 사용)"
      else if isENOTFOUND error then
        addScore (score SCORE_CRITERIA.CNAME.deprecated) ;;
        push ("❌ [-15] " ++ message SCORE_CRITERIA.CNAME.deprecated)
      else
        push ("⚠️ [0] CNAME 레코드 확인 중 오류 발생: " ++ errMessage error)
  end.

(** [dns.reverse(ip).catch(() => '')] *)
Definition reverseOrEmpty (ip : string) : M ReverseLookup :=
  r <- ask (QReverse ip) (reverse dns ip) ;;
  ret (match r with
       | Fulfilled hostnames => Ptr hostnames
       | Rejected _ => PtrFailed
       end).

(** 5. A *)
Definition checkA (domain : string) : M unit :=
  r <- ask (Q4 domain) (resolve4 dns domain) ;;
  match r with
  | Fulfilled aRecords =>
      if (0 <? length aRecords)%nat then
        if (5 <=? length aRecords)%nat then
          addScore (score SCORE_CRITERIA.A.unstable) ;;
          push ("❌ [-10] " ++ message SCORE_CRITERIA.A.unstable
                ++ " (발견된 IP: " ++ Js.showNat (length aRecords) ++ "개)")
        else
          reverseLookups <- mapM reverseOrEmpty aRecords ;;
          if isStableIp reverseLookups then
            addScore (score SCORE_CRITERIA.A.stable) ;;
            push ("✅ [+5] " ++ message SCORE_CRITERIA.A.stable
                  ++ " (PTR: " ++ Js.join ", " (flat reverseLookups) ++ ")")
          else
            push ("ℹ️ [0] A 레코드가 클라우드 제공업체 IP가 아닐 수 있습니다. (PTR: "
                  ++ Js.orElse (Js.join ", " (flat reverseLookups)) "N/A"
                  ++ ")")
      else
        push "⚠️ [0] A 레코드를 찾을 수 없습니다."
  | Rejected error =>
      if negb (isENODATA error) && negb (isENOTFOUND error) then
        push ("⚠️ [0] A 레코드 확인 중 오류 발생: " ++ errMessage error)
      else
        ret tt
  end.

(** 6. MX *)
Definition checkMX (domain : string) : M unit :=
  r <- ask (QMx domain) (resolveMx dns domain) ;;
  match r with
  | Fulfilled mxRecords =>
      if (0 <? length mxRecords)%nat then
        addScore (score SCORE_CRITERIA.MX.exists_) ;;
        push ("✅ [+5] " ++ message SCORE_CRITERIA.MX.exists_)
      else
        addScore (score SCORE_CRITERIA.MX.not_exists) ;;
        push ("❌ [-5] " ++ message SCORE_CRITERIA.MX.not_exists)
  | Rejected error =>
      if isENODATA error || isENOTFOUND error then
        addScore (score SCORE_CRITERIA.MX.not_exists) ;;
        push ("❌ [-5] " ++ message SCORE_CRITERIA.MX.not_exists)
      else
        push ("⚠️ [0] MX 레코드 확인 중 오류 발생: " ++ errMessage error)
  end.

(** The final printing of the report. *)
Definition printReport (domain : string) : M unit := fun s =>
  (log "---" ;;
   log ("🔎 도메인 신뢰도 분석 리포트: " ++ domain) ;;
   log "---" ;;
   forEach log (report s) ;;
   log "---" ;;
   log ("💯 총 점수: " ++ Js.showInt (totalScore s)) ;;
   log "---") s.

Definition generateTrustReport (domain : string) : M unit :=
  checkSPF domain ;;
  checkDMARC domain ;;
  checkNS domain ;;
  checkCNAME domain ;;
  checkA domain ;;
  checkMX domain ;;
  printReport domain.

(** *** The front end: one round of [startAnalyzer] *)

Section FrontEnd.

(** [String.prototype.trim] and the host name of [new URL(u)] ([None] when
    the constructor throws) belong to the platform. *)
Variable trim : string -> string.
Variable urlHostname : string -> option string.

(** [s.split('/')[0]] *)
Fixpoint beforeSlash (s : string) : string :=
  match s with
  | EmptyString => EmptyString
  | String c s' => if Ascii.eqb c "/" then EmptyString
                   else String c (beforeSlash s')
  end.

(** What a round ends with: the interface is closed, or the prompt is
    shown again. *)
Inductive Next := Close | Prompt.

Definition startAnalyzer (input : string) : M Next :=
  let trimmedInput := trim input in
  if String.eqb (Js.toLowerCase trimmedInput) "exit" then
    ret Close
  else if String.eqb trimmedInput "" then
    log "⚠️ 아무것도 입력되지 않았습니다. 다시 입력해주세요." ;;
    ret Prompt
  else
    let potentialUrl :=
      if negb (Js.startsWith trimmedInput "http")
      then "http://" ++ trimmedInput else trimmedInput in
    domainToAnalyze <-
      match urlHostname potentialUrl with
      | Some hostname =>
          if negb (String.eqb hostname (beforeSlash trimmedInput)) then
            log (String "010" "ℹ️ 입력하신 주소에서 도메인 '" ++ hostname
                 ++ "'을(를) 추출하여 분석합니다.") ;;
            ret hostname
          else ret trimmedInput
      | None => ret trimmedInput
      end ;;
    generateTrustReport domainToAnalyze ;;
    ret Prompt.

End FrontEnd.

End Analyzer.

(** ** Reading a report *)

(** The six checks, in the order the analyzer runs them. *)
Inductive CheckKind := SPF | DMARC | NS | CNAME | A | MX.

Definition allChecks : list CheckKind := [SPF; DMARC; NS; CNAME; A; MX].

Definition check (dns : Resolver) (k : CheckKind) : string -> M unit :=
  match k with
  | SPF => checkSPF dns
  | DMARC => checkDMARC dns
  | NS => checkNS dns
  | CNAME => checkCNAME dns
  | A => checkA dns
  | MX => checkMX dns
  end.

(** What one check, run on its own, adds to the score, appends to the
    report and asks the resolver. *)
Definition delta (dns : Resolver) (k : CheckKind) (domain : string) : Z :=
  totalScore (exec (check dns k domain) start).
Definition findings (dns : Resolver) (k : CheckKind) (domain : string)
  : list string :=
  report (exec (check dns k domain) start).
Definition asked (dns : Resolver) (k : CheckKind) (domain : string)
  : list Query :=
  queries (exec (check dns k domain) start).

(** The score delta a report line displays: the signed decimal between
    the first pair of square brackets. *)
Definition digitValue (c : ascii) : option Z :=
  let n := nat_of_ascii c in
  if (Nat.leb 48 n && Nat.leb n 57)%bool then Some (Z.of_nat (n - 48))
  else None.

Fixpoint readDigits (s : string) (acc : option Z) : option Z :=
  match s with
  | EmptyString => None
  | String c s' =>
      if Ascii.eqb c "]" then acc
      else match digitValue c with
           | Some d =>
               readDigits s' (Some (10 * match acc with
                                         | Some a => a
                                         | None => 0
                                         end + d))
           | None => None
           end
  end.

Fixpoint afterBracket (s : string) : option string :=
  match s with
  | EmptyString => None
  | String c s' => if Ascii.eqb c "[" then Some s' else afterBracket s'
  end.

Definition scoreDelta (line : string) : option Z :=
  match afterBracket line with
  | Some (String c s' as s) =>
      if Ascii.eqb c "+" then readDigits s' None
      else if Ascii.eqb c "-" then option_map Z.opp (readDigits s' None)
      else readDigits s None
  | _ => None
  end.

Fixpoint sumDeltas (lines : list string) : option Z :=
  match lines with
  | [] => Some 0
  | line :: rest =>
      match scoreDelta line, sumDeltas rest with
      | Some d, Some t => Some (d + t)
      | _, _ => None
      end
  end.

(** A zero-delta informational line: the warning or information sign
    followed by the label [[0]]. *)
Definition informational (line : string) : bool :=
  Js.startsWith line "⚠️ [0] " || Js.startsWith line "ℹ️ [0] ".

(** ** Notions used in the statements *)

(** [extend s t]: the run [s] followed by what a computation started from
    [start] left in [t]. *)
Definition extend (s t : Run) : Run :=
  {| totalScore := totalScore s + totalScore t;
     report := report s ++ report t;
     queries := queries s ++ queries t;
     console := console s ++ console t |}.

Definition additive {T} (m : M T) : Prop :=
  forall s, m s = (fst (m start), extend s (snd (m start))).

(** The reverse lookups of the A check, as a function of the addresses. *)
Definition reverseLookupsOf (dns : Resolver) (aRecords : list string)
  : list ReverseLookup :=
  map (fun ip => match reverse dns ip with
                 | Fulfilled hostnames => Ptr hostnames
                 | Rejected _ => PtrFailed
                 end) aRecords.

(** Whether the primary A lookup is rejected with one of the two absence
    codes. *)
Definition aLookupAbsent (dns : Resolver) (domain : string) : bool :=
  match resolve4 dns domain with
  | Fulfilled _ => false
  | Rejected error => isENODATA error || isENOTFOUND error
  end.

(** *** The outcome of a run and the lines of the report *)

(** The state in which a call of [generateTrustReport] ends. *)
Definition final (dns : Resolver) (domain : string) : Run :=
  exec (generateTrustReport dns domain) start.

Definition hasSpf (spfRecords : list (list string)) : bool :=
  existsb (fun record => Js.startsWith (Js.join "" record) "v=spf1")
          spfRecords.

Definition spfPresentLine : string :=
  "✅ [+10] SPF 레코드가 존재합니다.".
Definition spfAbsentLine : string :=
  "❌ [-10] SPF 레코드가 존재하지 않습니다.".
Definition spfErrorLine (error : DnsError) : string :=
  "⚠️ [0] SPF 레코드 확인 중 오류 발생: " ++ errMessage error.

Definition hasDmarc (dmarcRecords : list (list string)) : bool :=
  existsb (fun record => Js.startsWith (Js.join "" record) "v=DMARC1")
          dmarcRecords.

Definition dmarcErrorLine (error : DnsError) : string :=
  "⚠️ [0] DMARC 레코드 확인 중 오류 발생: " ++ errMessage error.

Definition isReliable (nsRecords : list string) : bool :=
  existsb (fun ns =>
             existsb (fun provider => Js.includes (Js.toLowerCase ns) provider)
                     RELIABLE_NS_PROVIDERS)
          nsRecords.

Definition nsErrorLine (error : DnsError) : string :=
  "⚠️ [0] NS 레코드 확인 중 오류 발생: " ++ errMessage error.

Definition cnameNormalLine : string :=
  "✅ [+5] CNAME 레코드가 정상적으로 연결되어 있습니다.".
Definition cnameNoRecordLine : string :=
  "ℹ️ [0] www 서브도메인에 CNAME 레코드가 없습니다. (A 레코드 직접 사용)".
Definition cnameDeprecatedLine : string :=
  "❌ [-15] CNAME 레코드가 폐기된 서비스에 연결된 것으로 보입니다.".
Definition cnameErrorLine (error : DnsError) : string :=
  "⚠️ [0] CNAME 레코드 확인 중 오류 발생: " ++ errMessage error.

Definition aUnstableLine (count : nat) : string :=
  "❌ [-10] IP 주소가 불안정하거나 Fast Flux로 의심됩니다."
  ++ " (발견된 IP: " ++ Js.showNat count ++ "개)".
Definition aStableLine (reverseLookups : list ReverseLookup) : string :=
  "✅ [+5] 안정적인 IP 주소를 사용합니다 (클라우드 서비스)."
  ++ " (PTR: " ++ Js.join ", " (flat reverseLookups) ++ ")".
Definition aUnknownLine (reverseLookups : list ReverseLookup) : string :=
  "ℹ️ [0] A 레코드가 클라우드 제공업체 IP가 아닐 수 있습니다. (PTR: "
  ++ Js.orElse (Js.join ", " (flat reverseLookups)) "N/A" ++ ")".
Definition aNoneLine : string := "⚠️ [0] A 레코드를 찾을 수 없습니다.".
Definition aErrorLine (error : DnsError) : string :=
  "⚠️ [0] A 레코드 확인 중 오류 발생: " ++ errMessage error.

Definition mxPresentLine : string := "✅ [+5] MX 레코드가 존재합니다.".
Definition mxAbsentLine : string := "❌ [-5] MX 레코드가 존재하지 않습니다.".
Definition mxErrorLine (error : DnsError) : string :=
  "⚠️ [0] MX 레코드 확인 중 오류 발생: " ++ errMessage error.

(** *** Resolvers used as concrete inputs *)

(** A resolver that rejects every lookup with the same error. *)
Definition failing (error : DnsError) : Resolver :=
  {| resolveTxt := fun _ => Rejected error;
     resolveNs := fun _ => Rejected error;
     resolveCname := fun _ => Rejected error;
     resolve4 := fun _ => Rejected error;
     resolveMx := fun _ => Rejected error;
     reverse := fun _ => Rejected error |}.

Definition timedOut : DnsError :=
  {| code := "ETIMEOUT"; errMessage := "query timed out" |}.
Definition notFound : DnsError :=
  {| code := "ENOTFOUND"; errMessage := "name not found" |}.
Definition noData : DnsError :=
  {| code := "ENODATA"; errMessage := "no data" |}.

(** A resolver that answers by kind of record, whatever the domain; TXT
    lookups of a [_dmarc.] name get their own answer. *)
Definition scripted
  (txt dmarc : Settled (list (list string)))
  (ns cname a : Settled (list string))
  (mx : Settled (list MxRecord))
  (ptr : string -> Settled (list string)) : Resolver :=
  {| resolveTxt := fun name =>
       if Js.startsWith name "_dmarc." then dmarc else txt;
     resolveNs := fun _ => ns;
     resolveCname := fun _ => cname;
     resolve4 := fun _ => a;
     resolveMx := fun _ => mx;
     reverse := ptr |}.

(** A resolver that fails every lookup but the A lookup. *)
Definition addressesOnly (a : list string)
  (ptr : string -> Settled (list string)) : Resolver :=
  scripted (Rejected timedOut) (Rejected timedOut) (Rejected timedOut)
           (Rejected timedOut) (Fulfilled a) (Rejected timedOut) ptr.

Definition CheckKind_eqb (k1 k2 : CheckKind) : bool :=
  match k1, k2 with
  | SPF, SPF | DMARC, DMARC | NS, NS | CNAME, CNAME | A, A | MX, MX => true
  | _, _ => false
  end.

(** The error with which the primary lookup of a check is rejected, if it
    is. *)
Definition primaryError (dns : Resolver) (k : CheckKind) (domain : string)
  : option DnsError :=
  let rejection {T} (r : Settled T) :=
    match r with Fulfilled _ => None | Rejected error => Some error end in
  match k with
  | SPF => rejection (resolveTxt dns domain)
  | DMARC => rejection (resolveTxt dns ("_dmarc." ++ domain))
  | NS => rejection (resolveNs dns domain)
  | CNAME => rejection (resolveCname dns ("www." ++ domain))
  | A => rejection (resolve4 dns domain)
  | MX => rejection (resolveMx dns domain)
  end.

(** The line each check appends in its last [catch] branch. *)
Definition errorLine (k : CheckKind) (error : DnsError) : string :=
  match k with
  | SPF => spfErrorLine error
  | DMARC => dmarcErrorLine error
  | NS => nsErrorLine error
  | CNAME => cnameErrorLine error
  | A => aErrorLine error
  | MX => mxErrorLine error
  end.

(** A resolver whose A lookup returns five distinct addresses and whose
    reverse lookups would all name a cloud provider. *)
Definition fiveAddresses : Resolver :=
  addressesOnly
    ["192.0.2.1"; "192.0.2.2"; "192.0.2.3"; "192.0.2.4"; "192.0.2.5"]
    (fun _ => Fulfilled ["ec2-192-0-2-1.compute.amazonaws.com"]).

(** A resolver whose A lookup returns the same address five times. *)
Definition fiveCopies : Resolver :=
  addressesOnly (repeat "192.0.2.1" 5) (fun _ => Rejected notFound).

(** The classification rule in the specification's words: some host name
    in some address's reverse-lookup result contains, case-insensitively,
    one of the providers. *)
Definition anyHostnameStable (reverseLookups : list ReverseLookup) : bool :=
  existsb (fun ptr =>
             match ptr with
             | Ptr hostnames =>
                 existsb (fun h =>
                            existsb (fun provider =>
                                       Js.includes (Js.toLowerCase h) provider)
                                    RELIABLE_IP_PROVIDERS)
                         hostnames
             | PtrFailed => false
             end)
          reverseLookups.

(** A resolver whose reverse lookup names a cloud provider in its second
    host name only. *)
Definition cloudNamedSecond : Resolver :=
  addressesOnly ["203.0.113.7"]
    (fun _ => Fulfilled ["host.example.net";
                         "ec2-203-0-113-7.compute.amazonaws.com"]).

(** Two addresses: the reverse lookup of the first is rejected, that of
    the second names Amazon in upper case. *)
Definition oneCloudAddress : Resolver :=
  addressesOnly ["198.51.100.1"; "198.51.100.2"]
    (fun ip => if String.eqb ip "198.51.100.2"
               then Fulfilled ["EC2-198-51-100-2.COMPUTE.AMAZONAWS.COM"]
               else Rejected timedOut).

(** Two addresses whose reverse lookups are both rejected. *)
Definition noReverseNames : Resolver :=
  addressesOnly ["198.51.100.1"; "198.51.100.2"] (fun _ => Rejected notFound).

(** TXT answers for the domain itself; everything else times out. *)
Definition txtOnly (txt : Settled (list (list string))) : Resolver :=
  scripted txt (Rejected timedOut) (Rejected timedOut) (Rejected timedOut)
           (Rejected timedOut) (Rejected timedOut)
           (fun _ => Rejected timedOut).

(** MX answers; everything else times out. *)
Definition mxOnly (mx : Settled (list MxRecord)) : Resolver :=
  scripted (Rejected timedOut) (Rejected timedOut) (Rejected timedOut)
           (Rejected timedOut) (Rejected timedOut) mx
           (fun _ => Rejected timedOut).

Definition emptyInputWarning : string :=
  "⚠️ 아무것도 입력되지 않았습니다. 다시 입력해주세요.".

(** SPF present, DMARC absent, a Cloudflare name server, no CNAME at
    [www], two addresses without reverse names, one mail exchanger. *)
Definition scenario : Resolver :=
  scripted (Fulfilled [["v=spf1 include:_spf.example.net ~all"]])
           (Rejected noData)
           (Fulfilled ["ada.ns.cloudflare.com"; "bob.ns.cloudflare.com"])
           (Rejected noData)
           (Fulfilled ["198.51.100.1"; "198.51.100.2"])
           (Fulfilled [{| exchange := "mail.example.com"; priority := 10 |}])
           (fun _ => Rejected notFound).

(** ** The WHOIS analyzer (first part of whoisChecker.js) *)

Module Whois.

(** The record [whois-json] resolves to: a flat object from field names to
    the text found for them.  The analyzer uses it through [key in info],
    [info[key]] and [JSON.stringify(info)]. *)
Definition Info := string -> option string.

(** What the analyzer takes from its libraries and from the clock. *)
Record Platform (Date : Type) := {
  (** [parse(url).domain] of tldts, [None] for [null] *)
  tldts_domain : string -> option string;
  (** [await whois(domain)] *)
  whois : string -> Settled Info;
  (** [dayjs(value)], [None] when [isValid()] is false *)
  dayjs : string -> option Date;
  (** [dayjs().diff(d, 'year')] *)
  yearsSince : Date -> Z;
  (** [d.diff(dayjs(), 'month')] *)
  monthsUntil : Date -> Z;
  (** [d.format('YYYY-MM-DD')] *)
  format : Date -> string;
  (** [JSON.stringify(info)] *)
  stringify : Info -> string;
  (** the text [console.log(info)] prints *)
  inspect : Info -> string
}.
Arguments tldts_domain {Date} _ _.
Arguments whois {Date} _ _.
Arguments dayjs {Date} _ _.
Arguments yearsSince {Date} _ _.
Arguments monthsUntil {Date} _ _.
Arguments format {Date} _ _.
Arguments stringify {Date} _ _.
Arguments inspect {Date} _ _.

(** The object [analyzeDomain] returns on success. *)
Record Analysis := {
  domain : string;
  createdDate : string;
  expiresDate : string;
  score : Z;
  notes : list string
}.

Inductive Result :=
| Error (error : string)
| Analysed (analysis : Analysis).

(** A line written by [console.log] or by [console.error]. *)
Inductive Printed :=
| Stdout (line : string)
| Stderr (line : string).

Definition creationDateKeys : list string :=
  ["createdDate"; "creationDate"; "registeredDate"; "Creation Date";
   "Created On"].
Definition expirationDateKeys : list string :=
  ["expiresDate"; "expirationDate"; "registryExpiryDate";
   "registrarRegistrationExpirationDate"; "Registry Expiry Date";
   "Registrar Registration Expiration Date"].
Definition riskCountries : list string := ["NG"; "RU"; "CN"].

(** [score += points; notes.push(note)] on the two accumulators. *)
Definition flag (points : Z) (note : string) (acc : Z * list string)
  : Z * list string :=
  (fst acc + points, (snd acc ++ [note])%list).

(** [xs.includes(x)] on strings *)
Definition includesString (xs : list string) (x : string) : bool :=
  existsb (String.eqb x) xs.

(** [notes.forEach((note, i) => console.log(` ${i + 1}. ${note}`))], the
    index starting at [i]. *)
Fixpoint numbered (i : nat) (notes : list string) : list Printed :=
  match notes with
  | [] => []
  | note :: rest =>
      Stdout (" " ++ Js.showNat (i + 1) ++ ". " ++ note)
      :: numbered (S i) rest
  end.

Section Analyzer.

Context {Date : Type}.
Variable env : Platform Date.

(** [result.domain || null]: the empty string is falsy too. *)
Definition extractDomain (url : string) : option string :=
  match tldts_domain env url with
  | Some d => if String.eqb d "" then None else Some d
  | None => None
  end.

Fixpoint validDate (info : Info) (candidates : list string) : option Date :=
  match candidates with
  | [] => None
  | key :: rest =>
      match info key with
      | Some value =>
          match dayjs env value with
          | Some parsed => Some parsed
          | None => validDate info rest
          end
      | None => validDate info rest
      end
  end.

(** 1. creation date *)
Definition scoreCreation (createdDate : option Date)
  (acc : Z * list string) : Z * list string :=
  match createdDate with
  | Some d =>
      if yearsSince env d <? 1
      then flag 30 "도메인이 1년 미만의 최근에 생성됨" acc
      else acc
  | None => flag 10 "도메인 생성일을 확인할 수 없음" acc
  end.

(** 2. registration period *)
Definition scoreExpiry (expiresDate : option Date)
  (acc : Z * list string) : Z * list string :=
  match expiresDate with
  | Some d =>
      if monthsUntil env d <? 12
      then flag 15 "도메인 등록 기간이 1년 이하" acc
      else acc
  | None => flag 10 "도메인 만료일을 확인할 수 없음" acc
  end.

(** 3. registrant privacy *)
Definition scorePrivacy (info : Info)
  (acc : Z * list string) : Z * list string :=
  let registrantFields := Js.toLowerCase (stringify env info) in
  if Js.includes registrantFields "privacy"
     || Js.includes registrantFields "redacted"
  then flag 20 "등록자 정보가 비공개 처리됨" acc
  else acc.

(** 4. risk countries *)
Definition scoreCountry (info : Info)
  (acc : Z * list string) : Z * list string :=
  match info "country" with
  | Some country =>
      if negb (String.eqb country "") && includesString riskCountries country
      then flag 10 ("등록자 국가가 위험 국가(" ++ country ++ ")로 분류됨") acc
      else acc
  | None => acc
  end.

(** [analyzeDomain(url)]: the lines it prints and the object it returns. *)
Definition analyzeDomain (url : string) : list Printed * Result :=
  match extractDomain url with
  | None => ([], Error "유효하지 않은 URL입니다.")
  | Some domain =>
      match whois env domain with
      | Rejected error =>
          ([], Error ("분석 중 오류 발생: " ++ errMessage error))
      | Fulfilled info =>
          let createdDate := validDate info creationDateKeys in
          let expiresDate := validDate info expirationDateKeys in
          let acc :=
            scoreCountry info
              (scorePrivacy info
                 (scoreExpiry expiresDate
                    (scoreCreation createdDate (0, [])))) in
          ([Stdout (inspect env info)],
           Analysed
             {| domain := domain;
                createdDate := match createdDate with
                               | Some d => format env d
                               | None => "확인 불가"
                               end;
                expiresDate := match expiresDate with
                               | Some d => format env d
                               | None => "확인 불가"
                               end;
                score := fst acc;
                notes := snd acc |})
      end
  end.

(** The callback of [rl.question]: everything printed for one input. *)
Definition question (input : string) : list Printed :=
  let (printed, result) := analyzeDomain input in
  (printed
   ++ [Stdout (String "010" "----------분석 결과----------")]
   ++ match result with
      | Error error => [Stderr error]
      | Analysed result =>
          [Stdout ("도메인: " ++ domain result);
           Stdout ("생성일: " ++ createdDate result);
           Stdout ("만료일: " ++ expiresDate result);
           Stdout ("위험 점수: " ++ Js.showInt (score result) ++ "/100")]
          ++ (if (0 <? length (notes result))%nat
              then Stdout "위험 요인: " :: numbered 0 (notes result)
              else [Stdout "문제 없음"])
      end)%list.

End Analyzer.

End Whois.

(** *** A WHOIS platform used as a concrete input *)

(** Dates are day numbers; the text of a date is a decimal number, the
    clock stands at day 20000. *)
Definition dayNumber (value : string) : option Z :=
  match value with
  | EmptyString => None
  | _ => match readDigits (value ++ "]") None with
         | Some n => Some n
         | None => None
         end
  end.

Definition toyPlatform (registry : string -> Settled Whois.Info)
  : Whois.Platform Z :=
  {| Whois.tldts_domain := fun url =>
       if Js.includes url "." then Some url else None;
     Whois.whois := registry;
     Whois.dayjs := dayNumber;
     Whois.yearsSince := fun d => (20000 - d) / 365;
     Whois.monthsUntil := fun d => (d - 20000) / 30;
     Whois.format := Js.showInt;
     Whois.stringify := fun info =>
       match info "registrant" with Some r => r | None => "{}" end;
     Whois.inspect := fun _ => "{...}" |}.

(** A record with a readable creation date after an unreadable one, a
    far expiry date, a redacted registrant and a listed country. *)
Definition youngRecord : Whois.Info := fun key =>
  if String.eqb key "createdDate" then Some "unknown"
  else if String.eqb key "Creation Date" then Some "19900"
  else if String.eqb key "expiresDate" then Some "21000"
  else if String.eqb key "registrant" then Some "REDACTED FOR PRIVACY"
  else if String.eqb key "country" then Some "RU"
  else None.

(** An old record with nothing to flag. *)
Definition cleanRecord : Whois.Info := fun key =>
  if String.eqb key "creationDate" then Some "10000"
  else if String.eqb key "expirationDate" then Some "21000"
  else if String.eqb key "country" then Some "KR"
  else None.

(** *** Further notions for the DNS analyzer *)

(** A computation that prints nothing. *)
Definition silent {T} (m : M T) : Prop :=
  forall s, console (snd (m s)) = console s.

Definition dmarcPresentLine : string :=
  "✅ [+10] DMARC 레코드가 존재합니다.".
Definition dmarcAbsentLine : string :=
  "❌ [-10] DMARC 레코드가 존재하지 않습니다.".
Definition nsReliableLine (nsRecords : list string) : string :=
  "✅ [+10] 신뢰할 수 있는 네임서버를 사용합니다."
  ++ " (" ++ Js.join ", " nsRecords ++ ")".
Definition nsUnreliableLine (nsRecords : list string) : string :=
  "❌ [-10] 무료 또는 신뢰도가 낮은 네임서버를 사용합니다."
  ++ " (" ++ Js.join ", " nsRecords ++ ")".

(** What a resolver answers to a query. *)
Inductive Answer :=
| TxtAnswer (records : Settled (list (list string)))
| NamesAnswer (names : Settled (list string))
| MxAnswer (records : Settled (list MxRecord)).

Definition answer (dns : Resolver) (q : Query) : Answer :=
  match q with
  | QTxt name => TxtAnswer (resolveTxt dns name)
  | QNs name => NamesAnswer (resolveNs dns name)
  | QCname name => NamesAnswer (resolveCname dns name)
  | Q4 name => NamesAnswer (resolve4 dns name)
  | QMx name => MxAnswer (resolveMx dns name)
  | QReverse ip => NamesAnswer (reverse dns ip)
  end.

(** Two resolvers give the same answers to the lookups a check makes:
    to every query the check issues when run against the first. *)
Definition sameAnswers (dns1 dns2 : Resolver) (k : CheckKind)
  (domain : string) : Prop :=
  forall q, In q (asked dns1 k domain) -> answer dns1 q = answer dns2 q.

(** Two resolvers that agree on the A lookup and on the reverse lookup of
    the one address it returns, and on nothing else. *)
Definition oneAddressQuiet : Resolver :=
  addressesOnly ["198.51.100.1"]
    (fun ip => if String.eqb ip "198.51.100.1"
               then Fulfilled ["server.googleusercontent.com"]
               else Rejected timedOut).

Definition oneAddressBusy : Resolver :=
  scripted (Fulfilled [["v=spf1 -all"]]) (Fulfilled [])
           (Fulfilled ["ada.ns.cloudflare.com"]) (Rejected notFound)
           (Fulfilled ["198.51.100.1"])
           (Fulfilled [{| exchange := "mail.example.com"; priority := 10 |}])
           (fun ip => if String.eqb ip "198.51.100.1"
                      then Fulfilled ["server.googleusercontent.com"]
                      else Fulfilled ["ec2.compute.amazonaws.com"]).

(** The header and the footer [generateTrustReport] prints around the
    report. *)
Definition reportHeader (domain : string) : list string :=
  ["---"; "🔎 도메인 신뢰도 분석 리포트: " ++ domain; "---"].
Definition reportFooter (total : Z) : list string :=
  ["---"; "💯 총 점수: " ++ Js.showInt total; "---"].

Definition extractionNotice (hostname : string) : string :=
  String "010" "ℹ️ 입력하신 주소에서 도메인 '" ++ hostname
  ++ "'을(를) 추출하여 분석합니다.".

(** [`http://${trimmedInput}`] unless the input starts with [http]. *)
Definition potentialUrl (trimmedInput : string) : string :=
  if negb (Js.startsWith trimmedInput "http")
  then "http://" ++ trimmedInput else trimmedInput.

(** A resolver for which every check takes its best branch, and one for
    which every check takes its worst. *)
Definition bestCase : Resolver :=
  scripted (Fulfilled [["v=spf1 -all"]])
           (Fulfilled [["v=DMARC1; p=reject"]])
           (Fulfilled ["ada.ns.cloudflare.com"])
           (Fulfilled ["target.example.net"])
           (Fulfilled ["198.51.100.1"])
           (Fulfilled [{| exchange := "mail.example.com"; priority := 10 |}])
           (fun _ => Fulfilled ["server.googleusercontent.com"]).

Definition worstCase : Resolver :=
  scripted (Rejected notFound)
           (Fulfilled [["v=dmarc1; p=none"]])
           (Fulfilled ["ns1.example.org"])
           (Rejected notFound)
           (Fulfilled (repeat "198.51.100.1" 5))
           (Fulfilled [])
           (fun _ => Rejected notFound).

(** A URL parser good enough for the inputs of the examples: the host
    name is what stands between [//] and the next [/], in lower case; a
    text without [//] does not parse. *)
Fixpoint afterSlashes (s : string) : option string :=
  match s with
  | EmptyString => None
  | String c s' =>
      if Js.startsWith s "//"
      then match s' with String _ rest => Some rest | EmptyString => None end
      else afterSlashes s'
  end.

Definition toyHostname (u : string) : option string :=
  match afterSlashes u with
  | Some rest => Some (Js.toLowerCase (beforeSlash rest))
  | None => None
  end.

(** The least and the greatest delta a check can contribute. *)
Definition lowest (k : CheckKind) : Z :=
  match k with
  | SPF | DMARC | NS | A => -10
  | CNAME => -15
  | MX => -5
  end.
Definition highest (k : CheckKind) : Z :=
  match k with
  | SPF | DMARC | NS => 10
  | CNAME | A | MX => 5
  end.

(** The sign a line opens with agrees with the delta it displays. *)
Definition markedBySign (line : string) : Prop :=
  exists d,
    scoreDelta line = Some d
    /\ (0 < d -> Js.startsWith line "✅ [+" = true)
    /\ (d < 0 -> Js.startsWith line "❌ [-" = true)
    /\ (d = 0 -> informational line = true).

(** A scoring step of the WHOIS analyzer either leaves the accumulators
    or raises one flag worth between 10 and [most] points, a multiple
    of 5. *)
Definition flagsAtMost (most : Z) (before after : Z * list string) : Prop :=
  after = before
  \/ exists points note,
       after = Whois.flag points note before
       /\ 10 <= points <= most /\ exists q, points = 5 * q.

(** ** Every check only adds to the run state *)

Lemma extend_start_r s : extend s start = s.
Proof.
  destruct s; unfold extend; simpl.
  now rewrite Z.add_0_r, !app_nil_r.
Qed.

Lemma extend_start_l t : extend start t = t.
Proof. destruct t; reflexivity. Qed.

Lemma extend_assoc s t u : extend s (extend t u) = extend (extend s t) u.
Proof.
  unfold extend; simpl.
  now rewrite Z.add_assoc, !app_assoc.
Qed.

Lemma additive_ret {T} (x : T) : additive (ret x).
Proof. intro s. unfold ret; simpl. now rewrite extend_start_r. Qed.

Lemma additive_bind {T U} (m : M T) (k : T -> M U) :
  additive m -> (forall x, additive (k x)) -> additive (bind m k).
Proof.
  intros Hm Hk s. unfold bind.
  rewrite (Hm s).
  destruct (m start) as [x t] eqn:E; simpl.
  rewrite (Hk x (extend s t)), (Hk x t); simpl.
  now rewrite extend_assoc.
Qed.

Lemma additive_addScore d : additive (addScore d).
Proof.
  intro s. unfold addScore, extend; simpl.
  now rewrite !app_nil_r.
Qed.

Lemma additive_push line : additive (push line).
Proof.
  intro s. unfold push, extend; simpl.
  now rewrite Z.add_0_r, !app_nil_r.
Qed.

Lemma additive_log line : additive (log line).
Proof.
  intro s. unfold log, extend; simpl.
  now rewrite Z.add_0_r, !app_nil_r.
Qed.

Lemma additive_ask {T} q (answer : Settled T) : additive (ask q answer).
Proof.
  intro s. unfold ask, extend; simpl.
  now rewrite Z.add_0_r, !app_nil_r.
Qed.

Lemma additive_mapM {T U} (f : T -> M U) xs :
  (forall x, additive (f x)) -> additive (mapM f xs).
Proof.
  intro Hf. induction xs as [|x rest IH]; simpl.
  - apply additive_ret.
  - apply additive_bind; [apply Hf|intro y].
    apply additive_bind; [exact IH|intro ys]. apply additive_ret.
Qed.

Create HintDb additive.
#[export] Hint Resolve additive_ret additive_addScore additive_push
  additive_log additive_ask : additive.

Ltac additive_step :=
  match goal with
  | |- additive (bind _ _) => apply additive_bind; [|intro]
  | |- additive (mapM _ _) => apply additive_mapM; intro
  | |- additive (match ?x with _ => _ end) => destruct x
  | |- additive _ => solve [auto with additive]
  end.

Lemma additive_reverseOrEmpty dns ip : additive (reverseOrEmpty dns ip).
Proof. unfold reverseOrEmpty. repeat additive_step. Qed.

Lemma additive_check dns k domain : additive (check dns k domain).
Proof.
  destruct k; simpl;
    unfold checkSPF, checkDMARC, checkNS, checkCNAME, checkA, checkMX;
    repeat first [additive_step | apply additive_reverseOrEmpty].
Qed.

(** Running a check after [s] adds its own delta, findings and queries. *)
Lemma exec_check dns k domain s :
  exec (check dns k domain) s =
  {| totalScore := totalScore s + delta dns k domain;
     report := report s ++ findings dns k domain;
     queries := queries s ++ asked dns k domain;
     console := console s ++ console (exec (check dns k domain) start) |}.
Proof.
  unfold exec at 1. rewrite (additive_check dns k domain s). reflexivity.
Qed.

Lemma totalScore_check dns k domain s :
  totalScore (exec (check dns k domain) s) = totalScore s + delta dns k domain.
Proof. now rewrite exec_check. Qed.

Lemma report_check dns k domain s :
  report (exec (check dns k domain) s) =
  (report s ++ findings dns k domain)%list.
Proof. now rewrite exec_check. Qed.

Lemma queries_check dns k domain s :
  queries (exec (check dns k domain) s) =
  (queries s ++ asked dns k domain)%list.
Proof. now rewrite exec_check. Qed.

Lemma exec_bind {T U} (m : M T) (k : T -> M U) s :
  exec (bind m k) s = exec (k (fst (m s))) (exec m s).
Proof. unfold exec, bind. now destruct (m s). Qed.

(** Printing leaves the score, the report and the list of queries as
    they are. *)
Lemma forEach_log lines s :
  exec (forEach log lines) s =
  {| totalScore := totalScore s; report := report s;
     queries := queries s; console := console s ++ lines |}.
Proof.
  revert s. induction lines as [|l rest IH]; intro s; simpl.
  - unfold exec, ret; simpl. destruct s; simpl. now rewrite app_nil_r.
  - rewrite exec_bind, IH. unfold exec, log; simpl.
    now rewrite <- app_assoc.
Qed.

Lemma exec_printReport domain s :
  exec (printReport domain) s =
  {| totalScore := totalScore s; report := report s; queries := queries s;
     console := console s
                ++ ["---"; "🔎 도메인 신뢰도 분석 리포트: " ++ domain; "---"]
                ++ report s
                ++ ["---"; "💯 총 점수: " ++ Js.showInt (totalScore s); "---"]
  |}.
Proof.
  unfold printReport.
  transitivity
    (exec (log "---" ;;
           log ("🔎 도메인 신뢰도 분석 리포트: " ++ domain) ;;
           log "---" ;;
           forEach log (report s) ;;
           log "---" ;;
           log ("💯 총 점수: " ++ Js.showInt (totalScore s)) ;;
           log "---") s); [reflexivity|].
  repeat (rewrite exec_bind; cbv beta).
  rewrite forEach_log. unfold exec, log; simpl.
  f_equal. repeat rewrite <- app_assoc. reflexivity.
Qed.

(** ** The run of [generateTrustReport] *)

Lemma final_shape dns domain :
  totalScore (final dns domain) =
    delta dns SPF domain + delta dns DMARC domain + delta dns NS domain
    + delta dns CNAME domain + delta dns A domain + delta dns MX domain
  /\ report (final dns domain) =
       (findings dns SPF domain ++ findings dns DMARC domain
        ++ findings dns NS domain ++ findings dns CNAME domain
        ++ findings dns A domain ++ findings dns MX domain)%list
  /\ queries (final dns domain) =
       (asked dns SPF domain ++ asked dns DMARC domain
        ++ asked dns NS domain ++ asked dns CNAME domain
        ++ asked dns A domain ++ asked dns MX domain)%list.
Proof.
  unfold final, generateTrustReport.
  repeat (rewrite exec_bind; cbv beta).
  rewrite exec_printReport.
  change (checkSPF dns) with (check dns SPF).
  change (checkDMARC dns) with (check dns DMARC).
  change (checkNS dns) with (check dns NS).
  change (checkCNAME dns) with (check dns CNAME).
  change (checkA dns) with (check dns A).
  change (checkMX dns) with (check dns MX).
  cbn [totalScore report queries].
  repeat (rewrite totalScore_check || rewrite report_check
          || rewrite queries_check).
  cbn [totalScore report queries start app].
  rewrite Z.add_0_l, <- !app_assoc. repeat split.
Qed.

Lemma mapM_reverseOrEmpty dns aRecords s :
  mapM (reverseOrEmpty dns) aRecords s =
  (reverseLookupsOf dns aRecords,
   {| totalScore := totalScore s; report := report s;
      queries := queries s ++ map QReverse aRecords;
      console := console s |}).
Proof.
  revert s. induction aRecords as [|ip rest IH]; intro s; simpl.
  - unfold ret. destruct s; simpl. now rewrite app_nil_r.
  - unfold bind at 1. unfold reverseOrEmpty at 1. unfold bind at 1.
    unfold ask at 1. unfold ret at 1. unfold bind at 1.
    rewrite IH. unfold ret; simpl. now rewrite <- app_assoc.
Qed.

(** *** What each check does, by case of the resolver's answer *)

Ltac run_check :=
  unfold delta, findings, asked, exec, check,
    checkSPF, checkDMARC, checkNS, checkCNAME, checkA, checkMX,
    bind, ask, addScore, push, ret; simpl.

Lemma checkSPF_cases dns domain :
  asked dns SPF domain = [QTxt domain] /\
  (delta dns SPF domain, findings dns SPF domain) =
  match resolveTxt dns domain with
  | Fulfilled spfRecords =>
      if hasSpf spfRecords then (10, [spfPresentLine])
      else (-10, [spfAbsentLine])
  | Rejected error =>
      if isENODATA error || isENOTFOUND error then (-10, [spfAbsentLine])
      else (0, [spfErrorLine error])
  end.
Proof.
  run_check. destruct (resolveTxt dns domain) as [records|error]; simpl.
  - unfold hasSpf. now destruct (existsb _ records).
  - now destruct (isENODATA error || isENOTFOUND error).
Qed.

Lemma checkDMARC_cases dns domain :
  asked dns DMARC domain = [QTxt ("_dmarc." ++ domain)] /\
  (delta dns DMARC domain, findings dns DMARC domain) =
  match resolveTxt dns ("_dmarc." ++ domain) with
  | Fulfilled dmarcRecords =>
      if hasDmarc dmarcRecords
      then (10, ["✅ [+10] DMARC 레코드가 존재합니다."])
      else (-10, ["❌ [-10] DMARC 레코드가 존재하지 않습니다."])
  | Rejected error =>
      if isENODATA error || isENOTFOUND error
      then (-10, ["❌ [-10] DMARC 레코드가 존재하지 않습니다."])
      else (0, [dmarcErrorLine error])
  end.
Proof.
  run_check.
  destruct (resolveTxt dns _) as [records|error]; simpl.
  - unfold hasDmarc. now destruct (existsb _ records).
  - now destruct (isENODATA error || isENOTFOUND error).
Qed.

Lemma checkNS_cases dns domain :
  asked dns NS domain = [QNs domain] /\
  (delta dns NS domain, findings dns NS domain) =
  match resolveNs dns domain with
  | Fulfilled nsRecords =>
      if isReliable nsRecords
      then (10, ["✅ [+10] 신뢰할 수 있는 네임서버를 사용합니다."
                 ++ " (" ++ Js.join ", " nsRecords ++ ")"])
      else (-10, ["❌ [-10] 무료 또는 신뢰도가 낮은 네임서버를 사용합니다."
                  ++ " (" ++ Js.join ", " nsRecords ++ ")"])
  | Rejected error => (0, [nsErrorLine error])
  end.
Proof.
  run_check.
  destruct (resolveNs dns domain) as [records|error]; simpl.
  - unfold isReliable. now destruct (existsb _ records).
  - easy.
Qed.

Lemma checkCNAME_cases dns domain :
  asked dns CNAME domain = [QCname ("www." ++ domain)] /\
  (delta dns CNAME domain, findings dns CNAME domain) =
  match resolveCname dns ("www." ++ domain) with
  | Fulfilled _ => (5, [cnameNormalLine])
  | Rejected error =>
      if isENODATA error then (0, [cnameNoRecordLine])
      else if isENOTFOUND error then (-15, [cnameDeprecatedLine])
      else (0, [cnameErrorLine error])
  end.
Proof.
  run_check.
  destruct (resolveCname dns _) as [records|error]; simpl.
  - easy.
  - now destruct (isENODATA error), (isENOTFOUND error).
Qed.

Lemma checkA_cases dns domain :
  (delta dns A domain, findings dns A domain, asked dns A domain) =
  match resolve4 dns domain with
  | Fulfilled aRecords =>
      if (0 <? length aRecords)%nat then
        if (5 <=? length aRecords)%nat
        then (-10, [aUnstableLine (length aRecords)], [Q4 domain])
        else if isStableIp (reverseLookupsOf dns aRecords)
             then (5, [aStableLine (reverseLookupsOf dns aRecords)],
                   Q4 domain :: map QReverse aRecords)
             else (0, [aUnknownLine (reverseLookupsOf dns aRecords)],
                   Q4 domain :: map QReverse aRecords)
      else (0, [aNoneLine], [Q4 domain])
  | Rejected error =>
      if negb (isENODATA error) && negb (isENOTFOUND error)
      then (0, [aErrorLine error], [Q4 domain])
      else (0, [], [Q4 domain])
  end.
Proof.
  unfold delta, findings, asked, check.
  set (run := exec (checkA dns domain) start).
  assert (E : run = exec (checkA dns domain) start) by reflexivity.
  unfold exec, checkA in E. unfold bind at 1 in E. unfold ask at 1 in E.
  destruct (resolve4 dns domain) as [aRecords|error].
  - destruct (0 <? length aRecords)%nat; [|now rewrite E].
    destruct (5 <=? length aRecords)%nat; [now rewrite E|].
    unfold bind at 1 in E. rewrite mapM_reverseOrEmpty in E.
    destruct (isStableIp (reverseLookupsOf dns aRecords)); now rewrite E.
  - destruct (negb (isENODATA error) && negb (isENOTFOUND error));
      now rewrite E.
Qed.

Lemma checkMX_cases dns domain :
  asked dns MX domain = [QMx domain] /\
  (delta dns MX domain, findings dns MX domain) =
  match resolveMx dns domain with
  | Fulfilled mxRecords =>
      if (0 <? length mxRecords)%nat then (5, [mxPresentLine])
      else (-5, [mxAbsentLine])
  | Rejected error =>
      if isENODATA error || isENOTFOUND error then (-5, [mxAbsentLine])
      else (0, [mxErrorLine error])
  end.
Proof.
  run_check.
  destruct (resolveMx dns domain) as [records|error]; simpl.
  - now destruct (0 <? length records)%nat.
  - now destruct (isENODATA error || isENOTFOUND error).
Qed.

(** ** Properties *)

Lemma sumDeltas_app l1 l2 a b :
  sumDeltas l1 = Some a -> sumDeltas l2 = Some b ->
  sumDeltas (l1 ++ l2) = Some (a + b).
Proof.
  revert a. induction l1 as [|line rest IH]; intros a H1 H2; simpl in *.
  - injection H1 as <-. now rewrite H2.
  - destruct (scoreDelta line) as [d|]; [|discriminate].
    destruct (sumDeltas rest) as [t|]; [|discriminate].
    injection H1 as <-. rewrite (IH t eq_refl H2). f_equal. lia.
Qed.

Lemma sumDeltas_findings dns k domain :
  sumDeltas (findings dns k domain) = Some (delta dns k domain).
Proof.
  destruct k.
  - destruct (checkSPF_cases dns domain) as [_ H].
    destruct (resolveTxt dns domain) as [records|error];
      [destruct (hasSpf records)
      |destruct (isENODATA error || isENOTFOUND error)];
      injection H as -> ->; reflexivity.
  - destruct (checkDMARC_cases dns domain) as [_ H].
    destruct (resolveTxt dns _) as [records|error];
      [destruct (hasDmarc records)
      |destruct (isENODATA error || isENOTFOUND error)];
      injection H as -> ->; reflexivity.
  - destruct (checkNS_cases dns domain) as [_ H].
    destruct (resolveNs dns domain) as [records|error];
      [destruct (isReliable records)|];
      injection H as -> ->; reflexivity.
  - destruct (checkCNAME_cases dns domain) as [_ H].
    destruct (resolveCname dns _) as [records|error];
      [|destruct (isENODATA error), (isENOTFOUND error)];
      injection H as -> ->; reflexivity.
  - pose proof (checkA_cases dns domain) as H.
    destruct (resolve4 dns domain) as [aRecords|error];
      [destruct (0 <? length aRecords)%nat;
       [destruct (5 <=? length aRecords)%nat;
        [|destruct (isStableIp (reverseLookupsOf dns aRecords))]|]
      |destruct (negb (isENODATA error) && negb (isENOTFOUND error))];
      injection H as -> -> _; reflexivity.
  - destruct (checkMX_cases dns domain) as [_ H].
    destruct (resolveMx dns domain) as [records|error];
      [destruct (0 <? length records)%nat
      |destruct (isENODATA error || isENOTFOUND error)];
      injection H as -> ->; reflexivity.
Qed.

(** Every check appends one line, except the A check when its lookup is
    rejected with an absence code. *)
Lemma findings_count dns k domain :
  length (findings dns k domain) =
  if CheckKind_eqb k A && aLookupAbsent dns domain then 0%nat else 1%nat.
Proof.
  unfold aLookupAbsent. destruct k; simpl CheckKind_eqb; simpl andb.
  + destruct (checkSPF_cases dns domain) as [_ H].
    destruct (resolveTxt dns domain) as [records|error];
      [destruct (hasSpf records)
      |destruct (isENODATA error || isENOTFOUND error)];
      injection H as _ ->; reflexivity.
  + destruct (checkDMARC_cases dns domain) as [_ H].
    destruct (resolveTxt dns _) as [records|error];
      [destruct (hasDmarc records)
      |destruct (isENODATA error || isENOTFOUND error)];
      injection H as _ ->; reflexivity.
  + destruct (checkNS_cases dns domain) as [_ H].
    destruct (resolveNs dns domain) as [records|error];
      [destruct (isReliable records)|];
      injection H as _ ->; reflexivity.
  + destruct (checkCNAME_cases dns domain) as [_ H].
    destruct (resolveCname dns _) as [records|error];
      [|destruct (isENODATA error), (isENOTFOUND error)];
      injection H as _ ->; reflexivity.
  + pose proof (checkA_cases dns domain) as H.
    destruct (resolve4 dns domain) as [aRecords|error];
      [destruct (0 <? length aRecords)%nat;
       [destruct (5 <=? length aRecords)%nat;
        [|destruct (isStableIp (reverseLookupsOf dns aRecords))]|]
      |destruct (isENODATA error), (isENOTFOUND error)];
      injection H as _ -> _; reflexivity.
  + destruct (checkMX_cases dns domain) as [_ H].
    destruct (resolveMx dns domain) as [records|error];
      [destruct (0 <? length records)%nat
      |destruct (isENODATA error || isENOTFOUND error)];
      injection H as _ ->; reflexivity.
Qed.

(** C1. The final [totalScore] is the sum of the score deltas displayed
    by the lines of the report, and the same holds check by check: a
    check appends at most one line; when it appends one, the delta that
    line displays is what the check adds to [totalScore] (so a line
    labelled [[0]] comes with no change of the score), and when it
    appends none it adds nothing. *)
Theorem totalScore_is_sum_of_finding_deltas dns domain :
  sumDeltas (report (final dns domain)) = Some (totalScore (final dns domain))
  /\ forall k,
       sumDeltas (findings dns k domain) = Some (delta dns k domain)
       /\ match findings dns k domain with
          | [] => delta dns k domain = 0
          | [line] => scoreDelta line = Some (delta dns k domain)
          | _ => False
          end.
Proof.
  split.
  - destruct (final_shape dns domain) as (-> & -> & _).
    rewrite <- !Z.add_assoc.
    repeat (apply sumDeltas_app; [apply sumDeltas_findings|]).
    apply sumDeltas_findings.
  - intro k. split; [apply sumDeltas_findings|].
    pose proof (sumDeltas_findings dns k domain) as Hs.
    pose proof (findings_count dns k domain) as Hc.
    destruct (findings dns k domain) as [|line [|line' rest]].
    + now injection Hs as <-.
    + simpl in Hs. destruct (scoreDelta line) as [d|]; [|discriminate].
      injection Hs as <-. f_equal. lia.
    + simpl in Hc.
      destruct (CheckKind_eqb k A && aLookupAbsent dns domain); discriminate.
Qed.

Example scoreDelta_plus : scoreDelta "✅ [+10] SPF 레코드가 존재합니다." = Some 10.
Proof. reflexivity. Qed.

Example scoreDelta_minus : scoreDelta cnameDeprecatedLine = Some (-15).
Proof. reflexivity. Qed.

Example scoreDelta_unlabelled : scoreDelta "---" = None.
Proof. reflexivity. Qed.

(** C2, as stated, fails: when the A lookup is rejected with ENOTFOUND the
    A check appends nothing, and the report has five lines. *)
Lemma absent_A_lookup_leaves_five_findings :
  findings (failing notFound) A "example.com" = []
  /\ report (final (failing notFound) "example.com") =
     [spfAbsentLine;
      "❌ [-10] DMARC 레코드가 존재하지 않습니다.";
      nsErrorLine notFound;
      cnameDeprecatedLine;
      mxAbsentLine]
  /\ length (report (final (failing notFound) "example.com")) = 5%nat.
Proof. repeat split. Qed.

(** C2, amended.  The report is the findings of the six checks in the
    order SPF, DMARC, NS, CNAME, A, MX; every check contributes exactly
    one finding, except that the A check contributes none when its
    lookup is rejected with ENODATA or ENOTFOUND. *)
Theorem one_finding_per_check_unless_A_absent dns domain :
  report (final dns domain) =
    flat_map (fun k => findings dns k domain) allChecks
  /\ forall k,
       length (findings dns k domain) =
       if CheckKind_eqb k A && aLookupAbsent dns domain then 0%nat else 1%nat.
Proof.
  split.
  - destruct (final_shape dns domain) as (_ & -> & _).
    simpl. now rewrite app_nil_r.
  - intro k. apply findings_count.
Qed.

Lemma transient_codes error :
  isTransient error = true ->
  isENODATA error = false /\ isENOTFOUND error = false.
Proof.
  unfold isTransient. now destruct (isENODATA error), (isENOTFOUND error).
Qed.

Lemma errorLine_informational k error :
  scoreDelta (errorLine k error) = Some 0
  /\ informational (errorLine k error) = true.
Proof. destruct k; split; reflexivity. Qed.

(** A check whose primary lookup fails with a transient error adds
    nothing to the score and appends its error line. *)
Lemma transient_check dns k domain error :
  primaryError dns k domain = Some error ->
  isTransient error = true ->
  delta dns k domain = 0 /\ findings dns k domain = [errorLine k error].
Proof.
  intros H Ht. destruct (transient_codes error Ht) as [Hd Hf].
  destruct k; cbn [primaryError errorLine] in *.
  - destruct (checkSPF_cases dns domain) as [_ E].
    destruct (resolveTxt dns domain); [discriminate|].
    injection H as ->. rewrite Hd, Hf in E. now injection E as -> ->.
  - destruct (checkDMARC_cases dns domain) as [_ E].
    destruct (resolveTxt dns _); [discriminate|].
    injection H as ->. rewrite Hd, Hf in E. now injection E as -> ->.
  - destruct (checkNS_cases dns domain) as [_ E].
    destruct (resolveNs dns domain); [discriminate|].
    injection H as ->. now injection E as -> ->.
  - destruct (checkCNAME_cases dns domain) as [_ E].
    destruct (resolveCname dns _); [discriminate|].
    injection H as ->. rewrite Hd, Hf in E. now injection E as -> ->.
  - pose proof (checkA_cases dns domain) as E.
    destruct (resolve4 dns domain); [discriminate|].
    injection H as ->. rewrite Hd, Hf in E. now injection E as -> -> _.
  - destruct (checkMX_cases dns domain) as [_ E].
    destruct (resolveMx dns domain); [discriminate|].
    injection H as ->. rewrite Hd, Hf in E. now injection E as -> ->.
Qed.

(** C3. If each of the six primary lookups is rejected with a transient
    error (a code other than ENODATA and ENOTFOUND), the total score is 0
    and the report consists of six lines, one per check, each displaying
    the delta 0 under the warning sign; no check changes the score. *)
Theorem all_transient_scores_zero dns domain
  (H : forall k, exists error,
         primaryError dns k domain = Some error /\ isTransient error = true) :
  totalScore (final dns domain) = 0
  /\ length (report (final dns domain)) = 6%nat
  /\ Forall (fun line => scoreDelta line = Some 0 /\ informational line = true)
            (report (final dns domain))
  /\ forall k, delta dns k domain = 0
               /\ exists error, primaryError dns k domain = Some error
                                /\ findings dns k domain = [errorLine k error].
Proof.
  assert (K : forall k, delta dns k domain = 0
               /\ exists error, primaryError dns k domain = Some error
                                /\ findings dns k domain = [errorLine k error]).
  { intro k. destruct (H k) as (error & Hp & Ht).
    destruct (transient_check dns k domain error Hp Ht) as [Hd Hf].
    split; [exact Hd|]. now exists error. }
  destruct (final_shape dns domain) as (-> & -> & _).
  destruct (K SPF) as (-> & e1 & _ & ->), (K DMARC) as (-> & e2 & _ & ->),
    (K NS) as (-> & e3 & _ & ->), (K CNAME) as (-> & e4 & _ & ->),
    (K A) as (-> & e5 & _ & ->), (K MX) as (-> & e6 & _ & ->).
  split; [reflexivity|]. split; [reflexivity|]. split; [|exact K].
  cbn [app].
  repeat (constructor; [apply errorLine_informational|]). constructor.
Qed.

Lemma all_transient_scores_zero_witness :
  totalScore (final (failing timedOut) "example.com") = 0
  /\ length (report (final (failing timedOut) "example.com")) = 6%nat.
Proof.
  assert (H : forall k, exists error,
            primaryError (failing timedOut) k "example.com" = Some error
            /\ isTransient error = true).
  { intro k. exists timedOut. destruct k; split; reflexivity. }
  destruct (all_transient_scores_zero (failing timedOut) "example.com" H)
    as (H0 & H6 & _).
  split; [exact H0|exact H6].
Defined.

(** The queries of a whole run: the six primary lookups in order, the
    reverse lookups of the A check (if any) right after its own. *)
Lemma queries_final dns domain :
  queries (final dns domain) =
  ([QTxt domain; QTxt ("_dmarc." ++ domain); QNs domain;
    QCname ("www." ++ domain)]
   ++ asked dns A domain ++ [QMx domain])%list.
Proof.
  destruct (final_shape dns domain) as (_ & _ & ->).
  destruct (checkSPF_cases dns domain) as [-> _].
  destruct (checkDMARC_cases dns domain) as [-> _].
  destruct (checkNS_cases dns domain) as [-> _].
  destruct (checkCNAME_cases dns domain) as [-> _].
  destruct (checkMX_cases dns domain) as [-> _].
  reflexivity.
Qed.

Lemma checkA_many dns domain aRecords :
  resolve4 dns domain = Fulfilled aRecords ->
  (5 <= length aRecords)%nat ->
  delta dns A domain = -10
  /\ findings dns A domain = [aUnstableLine (length aRecords)]
  /\ asked dns A domain = [Q4 domain].
Proof.
  intros Ha Hn. pose proof (checkA_cases dns domain) as E.
  rewrite Ha in E.
  replace (0 <? length aRecords)%nat with true in E
    by (symmetry; apply Nat.ltb_lt; lia).
  replace (5 <=? length aRecords)%nat with true in E
    by (symmetry; apply Nat.leb_le; lia).
  now injection E as -> -> ->.
Qed.

Lemma nodup_length_le (l : list string) :
  (length (nodup string_dec l) <= length l)%nat.
Proof.
  induction l as [|x rest IH]; simpl; [lia|].
  destruct (in_dec string_dec x rest); simpl; lia.
Qed.

(** C4. When the A lookup returns a list with five or more distinct
    addresses, the A check subtracts 10, appends the fast-flux line, and
    the run issues no reverse lookup at all: the A check asks its primary
    query only, and the queries of the whole run are the six primary
    ones. *)
Theorem many_distinct_addresses_penalized_without_reverse
  dns domain aRecords
  (Ha : resolve4 dns domain = Fulfilled aRecords)
  (Hn : (5 <= length (nodup string_dec aRecords))%nat) :
  delta dns A domain = -10
  /\ findings dns A domain = [aUnstableLine (length aRecords)]
  /\ scoreDelta (aUnstableLine (length aRecords)) = Some (-10)
  /\ asked dns A domain = [Q4 domain]
  /\ existsb isReverse (queries (final dns domain)) = false
  /\ queries (final dns domain) =
       [QTxt domain; QTxt ("_dmarc." ++ domain); QNs domain;
        QCname ("www." ++ domain); Q4 domain; QMx domain].
Proof.
  pose proof (nodup_length_le aRecords) as Hle.
  destruct (checkA_many dns domain aRecords Ha) as (Hd & Hf & Hq); [lia|].
  rewrite queries_final, Hq.
  repeat split; assumption.
Qed.

Lemma many_distinct_addresses_penalized_without_reverse_witness :
  delta fiveAddresses A "example.com" = -10
  /\ findings fiveAddresses A "example.com" =
     ["❌ [-10] IP 주소가 불안정하거나 Fast Flux로 의심됩니다. (발견된 IP: 5개)"]
  /\ existsb isReverse (queries (final fiveAddresses "example.com")) = false.
Proof.
  destruct (many_distinct_addresses_penalized_without_reverse
              fiveAddresses "example.com"
              ["192.0.2.1"; "192.0.2.2"; "192.0.2.3"; "192.0.2.4";
               "192.0.2.5"] eq_refl)
    as (Hd & Hf & _ & _ & Hr & _).
  - vm_compute. lia.
  - repeat split; assumption.
Defined.

(** C10. The fast-flux penalty depends on the length of the returned
    list alone: any list of five or more entries, whether or not the
    entries are distinct, makes the A check subtract 10 and append the
    fast-flux line showing that length, with no reverse lookup. *)
Theorem penalty_counts_entries_not_distinct_addresses
  dns domain aRecords
  (Ha : resolve4 dns domain = Fulfilled aRecords)
  (Hn : (5 <= length aRecords)%nat) :
  delta dns A domain = -10
  /\ findings dns A domain = [aUnstableLine (length aRecords)]
  /\ asked dns A domain = [Q4 domain].
Proof. exact (checkA_many dns domain aRecords Ha Hn). Qed.

Lemma penalty_counts_entries_not_distinct_addresses_witness :
  length (nodup string_dec (repeat "192.0.2.1" 5)) = 1%nat
  /\ delta fiveCopies A "example.com" = -10
  /\ findings fiveCopies A "example.com" =
     ["❌ [-10] IP 주소가 불안정하거나 Fast Flux로 의심됩니다. (발견된 IP: 5개)"].
Proof.
  split; [reflexivity|].
  destruct (penalty_counts_entries_not_distinct_addresses
              fiveCopies "example.com" (repeat "192.0.2.1" 5) eq_refl)
    as (Hd & Hf & _).
  - simpl. lia.
  - split; assumption.
Defined.

(** *** The A check on one to four addresses *)

(** C5, as stated, fails: a provider name in a host name other than the
    first of a reverse-lookup result does not make the address stable. *)
Lemma provider_in_second_hostname_is_not_stable :
  resolve4 cloudNamedSecond "example.com" = Fulfilled ["203.0.113.7"]
  /\ anyHostnameStable
       (reverseLookupsOf cloudNamedSecond ["203.0.113.7"]) = true
  /\ delta cloudNamedSecond A "example.com" = 0
  /\ findings cloudNamedSecond A "example.com" =
     ["ℹ️ [0] A 레코드가 클라우드 제공업체 IP가 아닐 수 있습니다. (PTR: host.example.net, ec2-203-0-113-7.compute.amazonaws.com)"].
Proof. repeat split. Qed.

Lemma provider_not_in_empty provider :
  In provider RELIABLE_IP_PROVIDERS ->
  Js.includes (Js.toLowerCase "") provider = false.
Proof.
  intro H. simpl in H.
  destruct H as [<-|[<-|[<-|[]]]]; reflexivity.
Qed.

Lemma isStableIp_spec dns aRecords :
  isStableIp (reverseLookupsOf dns aRecords) = true <->
  exists ip h rest provider,
    In ip aRecords
    /\ reverse dns ip = Fulfilled (h :: rest)
    /\ In provider RELIABLE_IP_PROVIDERS
    /\ Js.includes (Js.toLowerCase h) provider = true.
Proof.
  unfold isStableIp, reverseLookupsOf. rewrite existsb_exists. split.
  - intros (ptr & Hin & Hex).
    apply in_map_iff in Hin. destruct Hin as (ip & <- & Hip).
    apply existsb_exists in Hex. destruct Hex as (provider & Hp & Hinc).
    unfold firstIncludes, first in Hinc.
    destruct (reverse dns ip) as [[|h rest]|error] eqn:E; try discriminate.
    apply andb_true_iff in Hinc. destruct Hinc as [_ Hinc].
    now exists ip, h, rest, provider.
  - intros (ip & h & rest & provider & Hip & E & Hp & Hinc).
    exists (Ptr (h :: rest)). split.
    + apply in_map_iff. exists ip. now rewrite E.
    + apply existsb_exists. exists provider. split; [exact Hp|].
      unfold firstIncludes, first. rewrite Hinc, andb_true_r.
      destruct h as [|c h']; [|reflexivity].
      rewrite (provider_not_in_empty provider Hp) in Hinc. discriminate.
Qed.

(** C5, amended.  When the A lookup returns one to four addresses, a
    reverse lookup is issued for each address in turn, a rejected one
    counting as no host name.  The check adds 5 and appends the
    stable-provider line exactly when the FIRST host name of some
    address's reverse-lookup result contains, case-insensitively, one of
    amazonaws, azure, google; otherwise it adds nothing and appends the
    zero-delta unknown-provider line. *)
Theorem few_addresses_classified_by_first_hostname
  dns domain aRecords
  (Ha : resolve4 dns domain = Fulfilled aRecords)
  (Hn : (1 <= length aRecords <= 4)%nat) :
  let stable :=
    exists ip h rest provider,
      In ip aRecords
      /\ reverse dns ip = Fulfilled (h :: rest)
      /\ In provider RELIABLE_IP_PROVIDERS
      /\ Js.includes (Js.toLowerCase h) provider = true in
  asked dns A domain = Q4 domain :: map QReverse aRecords
  /\ (stable ->
      delta dns A domain = 5
      /\ findings dns A domain = [aStableLine (reverseLookupsOf dns aRecords)]
      /\ scoreDelta (aStableLine (reverseLookupsOf dns aRecords)) = Some 5)
  /\ (~ stable ->
      delta dns A domain = 0
      /\ findings dns A domain = [aUnknownLine (reverseLookupsOf dns aRecords)]
      /\ informational (aUnknownLine (reverseLookupsOf dns aRecords)) = true).
Proof.
  intro stable. pose proof (checkA_cases dns domain) as E.
  rewrite Ha in E.
  replace (0 <? length aRecords)%nat with true in E
    by (symmetry; apply Nat.ltb_lt; lia).
  replace (5 <=? length aRecords)%nat with false in E
    by (symmetry; apply Nat.leb_gt; lia).
  pose proof (isStableIp_spec dns aRecords) as S.
  destruct (isStableIp (reverseLookupsOf dns aRecords));
    injection E as -> -> ->.
  - split; [reflexivity|]. split.
    + intros _. repeat split.
    + intro Hns. exfalso. apply Hns, S. reflexivity.
  - split; [reflexivity|]. split.
    + intro Hs. apply S in Hs. discriminate.
    + intros _. repeat split.
Qed.

Lemma few_addresses_classified_by_first_hostname_witness :
  (asked oneCloudAddress A "example.com" =
     [Q4 "example.com"; QReverse "198.51.100.1"; QReverse "198.51.100.2"]
   /\ delta oneCloudAddress A "example.com" = 5
   /\ findings oneCloudAddress A "example.com" =
      ["✅ [+5] 안정적인 IP 주소를 사용합니다 (클라우드 서비스). (PTR: , EC2-198-51-100-2.COMPUTE.AMAZONAWS.COM)"])
  /\ (delta noReverseNames A "example.com" = 0
      /\ findings noReverseNames A "example.com" =
         ["ℹ️ [0] A 레코드가 클라우드 제공업체 IP가 아닐 수 있습니다. (PTR: , )"]).
Proof.
  split.
  - destruct (few_addresses_classified_by_first_hostname
                oneCloudAddress "example.com"
                ["198.51.100.1"; "198.51.100.2"] eq_refl)
      as (Hq & Hs & _).
    + simpl; lia.
    + split; [exact Hq|].
      destruct Hs as (Hd & Hf & _).
      * exists "198.51.100.2", "EC2-198-51-100-2.COMPUTE.AMAZONAWS.COM",
          [], "amazonaws".
        repeat split; simpl; auto.
      * split; [exact Hd|exact Hf].
  - destruct (few_addresses_classified_by_first_hostname
                noReverseNames "example.com"
                ["198.51.100.1"; "198.51.100.2"] eq_refl)
      as (_ & _ & Hu).
    + simpl; lia.
    + destruct Hu as (Hd & Hf & _).
      * intros (ip & h & rest & provider & _ & E & _). discriminate E.
      * split; [exact Hd|exact Hf].
Defined.

(** *** CNAME, SPF and MX by case *)

Lemma absence_codes_exclusive error :
  isENOTFOUND error = true -> isENODATA error = false.
Proof.
  unfold isENOTFOUND, isENODATA. intro H.
  apply String.eqb_eq in H. now rewrite H.
Qed.

(** C6. The CNAME check asks for the CNAME of [www.<domain>] and yields
    -15 with the unreachable-target line when the lookup is rejected with
    ENOTFOUND, a zero-delta information line when it is rejected with
    ENODATA, +5 with the resolves-normally line when it succeeds, and on
    any other rejection a zero-delta warning line that differs from the
    lines of all the other outcomes. *)
Theorem cname_outcomes dns domain :
  asked dns CNAME domain = [QCname ("www." ++ domain)]
  /\ (forall error,
        resolveCname dns ("www." ++ domain) = Rejected error ->
        isENOTFOUND error = true ->
        delta dns CNAME domain = -15
        /\ findings dns CNAME domain = [cnameDeprecatedLine]
        /\ scoreDelta cnameDeprecatedLine = Some (-15))
  /\ (forall error,
        resolveCname dns ("www." ++ domain) = Rejected error ->
        isENODATA error = true ->
        delta dns CNAME domain = 0
        /\ findings dns CNAME domain = [cnameNoRecordLine]
        /\ scoreDelta cnameNoRecordLine = Some 0
        /\ informational cnameNoRecordLine = true)
  /\ (forall records,
        resolveCname dns ("www." ++ domain) = Fulfilled records ->
        delta dns CNAME domain = 5
        /\ findings dns CNAME domain = [cnameNormalLine]
        /\ scoreDelta cnameNormalLine = Some 5)
  /\ (forall error,
        resolveCname dns ("www." ++ domain) = Rejected error ->
        isTransient error = true ->
        delta dns CNAME domain = 0
        /\ findings dns CNAME domain = [cnameErrorLine error]
        /\ scoreDelta (cnameErrorLine error) = Some 0
        /\ informational (cnameErrorLine error) = true
        /\ cnameErrorLine error <> cnameNoRecordLine
        /\ cnameErrorLine error <> cnameDeprecatedLine
        /\ cnameErrorLine error <> cnameNormalLine).
Proof.
  destruct (checkCNAME_cases dns domain) as [Hq E].
  split; [exact Hq|]. repeat apply conj.
  - intros error Hr Hf. rewrite Hr, (absence_codes_exclusive error Hf), Hf in E.
    now injection E as -> ->.
  - intros error Hr Hd. rewrite Hr, Hd in E. now injection E as -> ->.
  - intros records Hr. rewrite Hr in E. now injection E as -> ->.
  - intros error Hr Ht. destruct (transient_codes error Ht) as [Hd Hf].
    rewrite Hr, Hd, Hf in E. injection E as -> ->.
    repeat split; unfold cnameErrorLine; simpl; discriminate.
Qed.

Lemma cname_outcomes_witness :
  delta (failing notFound) CNAME "example.com" = -15
  /\ delta (failing noData) CNAME "example.com" = 0
  /\ findings (failing noData) CNAME "example.com" = [cnameNoRecordLine]
  /\ delta (scripted (Rejected timedOut) (Rejected timedOut)
              (Rejected timedOut) (Fulfilled ["target.example.net"])
              (Rejected timedOut) (Rejected timedOut)
              (fun _ => Rejected timedOut)) CNAME "example.com" = 5
  /\ findings (failing timedOut) CNAME "example.com" =
     ["⚠️ [0] CNAME 레코드 확인 중 오류 발생: query timed out"].
Proof.
  repeat apply conj.
  - destruct (cname_outcomes (failing notFound) "example.com")
      as (_ & H & _).
    exact (proj1 (H notFound eq_refl eq_refl)).
  - destruct (cname_outcomes (failing noData) "example.com")
      as (_ & _ & H & _).
    exact (proj1 (H noData eq_refl eq_refl)).
  - destruct (cname_outcomes (failing noData) "example.com")
      as (_ & _ & H & _).
    exact (proj1 (proj2 (H noData eq_refl eq_refl))).
  - destruct (cname_outcomes
                (scripted (Rejected timedOut) (Rejected timedOut)
                   (Rejected timedOut) (Fulfilled ["target.example.net"])
                   (Rejected timedOut) (Rejected timedOut)
                   (fun _ => Rejected timedOut)) "example.com")
      as (_ & _ & _ & H & _).
    exact (proj1 (H ["target.example.net"] eq_refl)).
  - destruct (cname_outcomes (failing timedOut) "example.com")
      as (_ & _ & _ & _ & H).
    exact (proj1 (proj2 (H timedOut eq_refl eq_refl))).
Defined.

Lemma hasSpf_spec records :
  hasSpf records = true <->
  exists record,
    In record records /\ Js.startsWith (Js.join "" record) "v=spf1" = true.
Proof. unfold hasSpf. apply existsb_exists. Qed.

(** C7. On a successful TXT lookup the SPF check yields +10 (Present)
    exactly when some returned record, its segments concatenated, starts
    with [v=spf1], and -10 (Absent) otherwise; a lookup rejected with
    ENODATA or ENOTFOUND yields -10 (Absent); any other rejection yields a
    zero-delta warning line. *)
Theorem spf_outcomes dns domain :
  asked dns SPF domain = [QTxt domain]
  /\ (forall records,
        resolveTxt dns domain = Fulfilled records ->
        let present :=
          exists record,
            In record records
            /\ Js.startsWith (Js.join "" record) "v=spf1" = true in
        (present <->
           delta dns SPF domain = 10
           /\ findings dns SPF domain = [spfPresentLine])
        /\ (~ present <->
              delta dns SPF domain = -10
              /\ findings dns SPF domain = [spfAbsentLine]))
  /\ (forall error,
        resolveTxt dns domain = Rejected error ->
        isENODATA error = true \/ isENOTFOUND error = true ->
        delta dns SPF domain = -10
        /\ findings dns SPF domain = [spfAbsentLine])
  /\ (forall error,
        resolveTxt dns domain = Rejected error ->
        isTransient error = true ->
        delta dns SPF domain = 0
        /\ findings dns SPF domain = [spfErrorLine error]
        /\ scoreDelta (spfErrorLine error) = Some 0
        /\ informational (spfErrorLine error) = true)
  /\ scoreDelta spfPresentLine = Some 10
  /\ scoreDelta spfAbsentLine = Some (-10).
Proof.
  destruct (checkSPF_cases dns domain) as [Hq E].
  split; [exact Hq|]. repeat apply conj; try reflexivity.
  - intros records Hr present. rewrite Hr in E.
    pose proof (hasSpf_spec records) as S. fold present in S.
    destruct (hasSpf records); injection E as -> ->.
    + split; split; try easy.
      * intros _. now apply S.
      * intro Hn. exfalso. now apply Hn, S.
    + split; split; try easy.
      * intro Hp. apply S in Hp. discriminate.
      * intros _ Hp. apply S in Hp. discriminate.
  - intros error Hr Hc. rewrite Hr in E.
    replace (isENODATA error || isENOTFOUND error) with true in E
      by (destruct Hc as [-> | ->]; now rewrite ?orb_true_r).
    now injection E as -> ->.
  - intros error Hr Ht. destruct (transient_codes error Ht) as [Hd Hf].
    rewrite Hr, Hd, Hf in E. now injection E as -> ->.
Qed.

Lemma spf_outcomes_witness :
  delta (txtOnly (Fulfilled [["v=spf1 -all"]])) SPF "example.com" = 10
  /\ delta (txtOnly (Fulfilled [["google-site-verification=abc"];
                                ["v=s"; "pf1 include:_spf.example.net ~all"]]))
           SPF "example.com" = 10
  /\ delta (txtOnly (Fulfilled [["v=notspf"]])) SPF "example.com" = -10
  /\ delta (txtOnly (Rejected notFound)) SPF "example.com" = -10
  /\ delta (txtOnly (Rejected timedOut)) SPF "example.com" = 0.
Proof.
  repeat apply conj.
  - destruct (spf_outcomes (txtOnly (Fulfilled [["v=spf1 -all"]]))
                "example.com") as (_ & H & _).
    destruct (H [["v=spf1 -all"]] eq_refl) as [[Hp _] _].
    apply Hp. exists ["v=spf1 -all"]. split; [now left|reflexivity].
  - destruct (spf_outcomes
                (txtOnly (Fulfilled
                            [["google-site-verification=abc"];
                             ["v=s"; "pf1 include:_spf.example.net ~all"]]))
                "example.com") as (_ & H & _).
    destruct (H [["google-site-verification=abc"];
                 ["v=s"; "pf1 include:_spf.example.net ~all"]] eq_refl)
      as [[Hp _] _].
    apply Hp. exists ["v=s"; "pf1 include:_spf.example.net ~all"].
    split; [right; now left|reflexivity].
  - destruct (spf_outcomes (txtOnly (Fulfilled [["v=notspf"]]))
                "example.com") as (_ & H & _).
    destruct (H [["v=notspf"]] eq_refl) as [_ [Hn _]].
    apply Hn. intros (record & [<-|[]] & Hs). discriminate Hs.
  - destruct (spf_outcomes (txtOnly (Rejected notFound)) "example.com")
      as (_ & _ & H & _).
    exact (proj1 (H notFound eq_refl (or_intror eq_refl))).
  - destruct (spf_outcomes (txtOnly (Rejected timedOut)) "example.com")
      as (_ & _ & _ & H & _).
    exact (proj1 (H timedOut eq_refl eq_refl)).
Defined.

(** The MX check by case of the answer. *)
Lemma mx_outcomes dns domain :
  asked dns MX domain = [QMx domain]
  /\ (forall records,
        resolveMx dns domain = Fulfilled records ->
        (1 <= length records)%nat ->
        delta dns MX domain = 5 /\ findings dns MX domain = [mxPresentLine])
  /\ (resolveMx dns domain = Fulfilled [] ->
      delta dns MX domain = -5 /\ findings dns MX domain = [mxAbsentLine])
  /\ (forall error,
        resolveMx dns domain = Rejected error ->
        isENODATA error = true \/ isENOTFOUND error = true ->
        delta dns MX domain = -5 /\ findings dns MX domain = [mxAbsentLine])
  /\ (forall error,
        resolveMx dns domain = Rejected error ->
        isTransient error = true ->
        delta dns MX domain = 0
        /\ findings dns MX domain = [mxErrorLine error]
        /\ scoreDelta (mxErrorLine error) = Some 0
        /\ informational (mxErrorLine error) = true)
  /\ scoreDelta mxPresentLine = Some 5
  /\ scoreDelta mxAbsentLine = Some (-5).
Proof.
  destruct (checkMX_cases dns domain) as [Hq E].
  split; [exact Hq|]. repeat apply conj; try reflexivity.
  - intros records Hr Hn. rewrite Hr in E.
    replace (0 <? length records)%nat with true in E
      by (symmetry; apply Nat.ltb_lt; lia).
    now injection E as -> ->.
  - intro Hr. rewrite Hr in E. now injection E as -> ->.
  - intros error Hr Hc. rewrite Hr in E.
    replace (isENODATA error || isENOTFOUND error) with true in E
      by (destruct Hc as [-> | ->]; now rewrite ?orb_true_r).
    now injection E as -> ->.
  - intros error Hr Ht. destruct (transient_codes error Ht) as [Hd Hf].
    rewrite Hr, Hd, Hf in E. now injection E as -> ->.
Qed.

(** C8, as stated, fails: absence is penalised in other checks too.  With
    every lookup rejected with ENOTFOUND the SPF and DMARC checks subtract
    10 and the CNAME check subtracts 15, as the MX check subtracts 5. *)
Lemma other_absences_are_penalised_too :
  (forall k, primaryError (failing notFound) k "example.com" = Some notFound)
  /\ isENOTFOUND notFound = true
  /\ delta (failing notFound) MX "example.com" = -5
  /\ delta (failing notFound) SPF "example.com" = -10
  /\ delta (failing notFound) DMARC "example.com" = -10
  /\ delta (failing notFound) CNAME "example.com" = -15.
Proof. split; [intros []; reflexivity|]. repeat split. Qed.

(** C8, amended.  The MX check yields +5 when the lookup returns at least
    one record, -5 when it returns none or is rejected with ENODATA or
    ENOTFOUND, and a zero-delta warning line on any other rejection.
    Absence is penalised likewise by the SPF and DMARC checks (-10 for an
    empty answer and for ENODATA or ENOTFOUND) and by the CNAME check on
    ENOTFOUND (-15); it is not penalised by the NS check (ENODATA or
    ENOTFOUND: 0), by the A check (empty answer, ENODATA or ENOTFOUND: 0)
    and by the CNAME check on ENODATA (0). *)
Theorem mx_absence_penalised_as_spf_dmarc_not_as_ns_a dns domain :
  (asked dns MX domain = [QMx domain]
   /\ (forall records,
         resolveMx dns domain = Fulfilled records ->
         (1 <= length records)%nat ->
         delta dns MX domain = 5 /\ findings dns MX domain = [mxPresentLine])
   /\ (resolveMx dns domain = Fulfilled [] ->
       delta dns MX domain = -5 /\ findings dns MX domain = [mxAbsentLine])
   /\ (forall error,
         resolveMx dns domain = Rejected error ->
         isENODATA error = true \/ isENOTFOUND error = true ->
         delta dns MX domain = -5 /\ findings dns MX domain = [mxAbsentLine])
   /\ (forall error,
         resolveMx dns domain = Rejected error ->
         isTransient error = true ->
         delta dns MX domain = 0
         /\ findings dns MX domain = [mxErrorLine error]
         /\ scoreDelta (mxErrorLine error) = Some 0
         /\ informational (mxErrorLine error) = true)
   /\ scoreDelta mxPresentLine = Some 5
   /\ scoreDelta mxAbsentLine = Some (-5))
  /\ (forall error,
        isENODATA error = true \/ isENOTFOUND error = true ->
        (resolveTxt dns domain = Rejected error ->
         delta dns SPF domain = -10)
        /\ (resolveTxt dns ("_dmarc." ++ domain) = Rejected error ->
            delta dns DMARC domain = -10)
        /\ (resolveNs dns domain = Rejected error ->
            delta dns NS domain = 0)
        /\ (resolve4 dns domain = Rejected error ->
            delta dns A domain = 0 /\ findings dns A domain = []))
  /\ (forall error,
        resolveCname dns ("www." ++ domain) = Rejected error ->
        (isENOTFOUND error = true -> delta dns CNAME domain = -15)
        /\ (isENODATA error = true -> delta dns CNAME domain = 0))
  /\ (resolveTxt dns domain = Fulfilled [] -> delta dns SPF domain = -10)
  /\ (resolveTxt dns ("_dmarc." ++ domain) = Fulfilled [] ->
      delta dns DMARC domain = -10)
  /\ (resolve4 dns domain = Fulfilled [] -> delta dns A domain = 0).
Proof.
  split; [apply mx_outcomes|].
  destruct (checkSPF_cases dns domain) as [_ Espf].
  destruct (checkDMARC_cases dns domain) as [_ Edmarc].
  destruct (checkNS_cases dns domain) as [_ Ens].
  destruct (checkCNAME_cases dns domain) as [_ Ecname].
  pose proof (checkA_cases dns domain) as Ea.
  split; [|split; [|split; [|split]]].
  - intros error Hc.
    assert (Hor : isENODATA error || isENOTFOUND error = true)
      by (destruct Hc as [-> | ->]; now rewrite ?orb_true_r).
    assert (Hand : negb (isENODATA error) && negb (isENOTFOUND error) = false)
      by (destruct Hc as [-> | ->]; now rewrite ?andb_false_r).
    split; [|split; [|split]].
    + intro Hr. rewrite Hr, Hor in Espf. now injection Espf as -> _.
    + intro Hr. rewrite Hr, Hor in Edmarc. now injection Edmarc as -> _.
    + intro Hr. rewrite Hr in Ens. now injection Ens as -> _.
    + intro Hr. rewrite Hr, Hand in Ea. now injection Ea as -> -> _.
  - intros error Hr. rewrite Hr in Ecname. split.
    + intro Hf. rewrite (absence_codes_exclusive error Hf), Hf in Ecname.
      now injection Ecname as -> _.
    + intro Hd. rewrite Hd in Ecname. now injection Ecname as -> _.
  - intro Hr. rewrite Hr in Espf. now injection Espf as -> _.
  - intro Hr. rewrite Hr in Edmarc. now injection Edmarc as -> _.
  - intro Hr. rewrite Hr in Ea. now injection Ea as -> _ _.
Qed.

Lemma mx_absence_penalised_as_spf_dmarc_not_as_ns_a_witness :
  delta (mxOnly (Fulfilled [{| exchange := "mail.example.com";
                               priority := 10 |}])) MX "example.com" = 5
  /\ delta (mxOnly (Fulfilled [])) MX "example.com" = -5
  /\ delta (mxOnly (Rejected noData)) MX "example.com" = -5
  /\ delta (mxOnly (Rejected timedOut)) MX "example.com" = 0
  /\ delta (failing noData) SPF "example.com" = -10
  /\ delta (failing noData) DMARC "example.com" = -10
  /\ delta (failing noData) NS "example.com" = 0
  /\ delta (failing noData) A "example.com" = 0
  /\ delta (failing notFound) CNAME "example.com" = -15
  /\ delta (failing noData) CNAME "example.com" = 0
  /\ delta (addressesOnly [] (fun _ => Rejected timedOut)) A "example.com"
     = 0.
Proof.
  repeat apply conj.
  - destruct (mx_absence_penalised_as_spf_dmarc_not_as_ns_a
                (mxOnly (Fulfilled [{| exchange := "mail.example.com";
                                       priority := 10 |}])) "example.com")
      as ((_ & H & _) & _).
    refine (proj1 (H _ eq_refl _)). simpl; lia.
  - destruct (mx_absence_penalised_as_spf_dmarc_not_as_ns_a
                (mxOnly (Fulfilled [])) "example.com")
      as ((_ & _ & H & _) & _).
    exact (proj1 (H eq_refl)).
  - destruct (mx_absence_penalised_as_spf_dmarc_not_as_ns_a
                (mxOnly (Rejected noData)) "example.com")
      as ((_ & _ & _ & H & _) & _).
    exact (proj1 (H noData eq_refl (or_introl eq_refl))).
  - destruct (mx_absence_penalised_as_spf_dmarc_not_as_ns_a
                (mxOnly (Rejected timedOut)) "example.com")
      as ((_ & _ & _ & _ & H & _) & _).
    exact (proj1 (H timedOut eq_refl eq_refl)).
  - destruct (mx_absence_penalised_as_spf_dmarc_not_as_ns_a
                (failing noData) "example.com") as (_ & H & _).
    exact (proj1 (H noData (or_introl eq_refl)) eq_refl).
  - destruct (mx_absence_penalised_as_spf_dmarc_not_as_ns_a
                (failing noData) "example.com") as (_ & H & _).
    exact (proj1 (proj2 (H noData (or_introl eq_refl))) eq_refl).
  - destruct (mx_absence_penalised_as_spf_dmarc_not_as_ns_a
                (failing noData) "example.com") as (_ & H & _).
    exact (proj1 (proj2 (proj2 (H noData (or_introl eq_refl)))) eq_refl).
  - destruct (mx_absence_penalised_as_spf_dmarc_not_as_ns_a
                (failing noData) "example.com") as (_ & H & _).
    exact (proj1 (proj2 (proj2 (proj2 (H noData (or_introl eq_refl))))
                   eq_refl)).
  - destruct (mx_absence_penalised_as_spf_dmarc_not_as_ns_a
                (failing notFound) "example.com") as (_ & _ & H & _).
    exact (proj1 (H notFound eq_refl) eq_refl).
  - destruct (mx_absence_penalised_as_spf_dmarc_not_as_ns_a
                (failing noData) "example.com") as (_ & _ & H & _).
    exact (proj2 (H noData eq_refl) eq_refl).
  - destruct (mx_absence_penalised_as_spf_dmarc_not_as_ns_a
                (addressesOnly [] (fun _ => Rejected timedOut))
                "example.com") as (_ & _ & _ & _ & _ & H).
    exact (H eq_refl).
Defined.

(** *** Input validation *)

(** C9, as stated, fails: called on the empty string, the analyzer asks the
    resolver its six primary questions and ends with a six-line report. *)
Lemma empty_domain_is_looked_up :
  queries (final (failing timedOut) "") =
    [QTxt ""; QTxt "_dmarc."; QNs ""; QCname "www."; Q4 ""; QMx ""]
  /\ length (report (final (failing timedOut) "")) = 6%nat
  /\ generateTrustReport (failing timedOut) "" start =
     (tt, final (failing timedOut) "").
Proof. vm_compute. repeat split. Qed.

(** C9, amended.  [generateTrustReport] does not validate its argument:
    for every string, the empty one included, it returns normally after
    asking the resolver the six primary questions about that string, the
    TXT lookup first.  Input that is empty after trimming is turned away
    by the caller, [startAnalyzer], which prints a warning and prompts
    again without calling the analyzer or the resolver. *)
Theorem argument_is_not_validated dns domain :
  generateTrustReport dns domain start = (tt, final dns domain)
  /\ queries (final dns domain) =
     ([QTxt domain; QTxt ("_dmarc." ++ domain); QNs domain;
       QCname ("www." ++ domain)]
      ++ asked dns A domain ++ [QMx domain])%list
  /\ (exists reverseQueries,
        asked dns A domain = Q4 domain :: reverseQueries
        /\ forallb isReverse reverseQueries = true)
  /\ forall trim urlHostname input,
       trim input = "" ->
       startAnalyzer dns trim urlHostname input start =
       (Prompt, {| totalScore := 0; report := []; queries := [];
                   console := [emptyInputWarning] |}).
Proof.
  split.
  { unfold final, exec.
    now destruct (generateTrustReport dns domain start) as [[] s]. }
  split; [apply queries_final|]. split.
  - pose proof (checkA_cases dns domain) as E.
    destruct (resolve4 dns domain) as [aRecords|error];
      [destruct (0 <? length aRecords)%nat;
       [destruct (5 <=? length aRecords)%nat;
        [|destruct (isStableIp (reverseLookupsOf dns aRecords))]|]
      |destruct (negb (isENODATA error) && negb (isENOTFOUND error))];
      injection E as _ _ ->;
      try (exists []; split; reflexivity);
      (exists (map QReverse aRecords); split; [reflexivity|]);
      clear; induction aRecords; simpl; auto.
  - intros trim urlHostname input Ht.
    unfold startAnalyzer. rewrite Ht. reflexivity.
Qed.

Lemma argument_is_not_validated_witness :
  startAnalyzer (failing timedOut) (fun s => s) (fun _ => None) "" start =
  (Prompt, {| totalScore := 0; report := []; queries := [];
              console := [emptyInputWarning] |}).
Proof.
  destruct (argument_is_not_validated (failing timedOut) "")
    as (_ & _ & _ & H).
  exact (H (fun s => s) (fun _ => None) "" eq_refl).
Defined.

(** *** The end-to-end scenario of the specification *)

Example scenario_score :
  totalScore (final scenario "example.com") = 15
  /\ map scoreDelta (report (final scenario "example.com")) =
     [Some 10; Some (-10); Some 10; Some 0; Some 0; Some 5]
  /\ console (final scenario "example.com") =
     ["---";
      "🔎 도메인 신뢰도 분석 리포트: example.com";
      "---";
      "✅ [+10] SPF 레코드가 존재합니다.";
      "❌ [-10] DMARC 레코드가 존재하지 않습니다.";
      "✅ [+10] 신뢰할 수 있는 네임서버를 사용합니다. (ada.ns.cloudflare.com, bob.ns.cloudflare.com)";
      "ℹ️ [0] www 서브도메인에 CNAME 레코드가 없습니다. (A 레코드 직접 사용)";
      "ℹ️ [0] A 레코드가 클라우드 제공업체 IP가 아닐 수 있습니다. (PTR: , )";
      "✅ [+5] MX 레코드가 존재합니다.";
      "---";
      "💯 총 점수: 15";
      "---"].
Proof. vm_compute. repeat split. Qed.

(** ** Further properties of the DNS analyzer *)

(** *** The checks print nothing; the report is printed at the end *)

Lemma silent_ret {T} (x : T) : silent (ret x).
Proof. intro s. reflexivity. Qed.

Lemma silent_bind {T U} (m : M T) (k : T -> M U) :
  silent m -> (forall x, silent (k x)) -> silent (bind m k).
Proof.
  intros Hm Hk s. unfold bind.
  specialize (Hm s). destruct (m s) as [x s']. simpl in Hm.
  now rewrite Hk.
Qed.

Lemma silent_addScore d : silent (addScore d).
Proof. intro s. reflexivity. Qed.

Lemma silent_push line : silent (push line).
Proof. intro s. reflexivity. Qed.

Lemma silent_ask {T} q (answer : Settled T) : silent (ask q answer).
Proof. intro s. reflexivity. Qed.

Lemma silent_mapM {T U} (f : T -> M U) xs :
  (forall x, silent (f x)) -> silent (mapM f xs).
Proof.
  intro Hf. induction xs as [|x rest IH]; simpl.
  - apply silent_ret.
  - apply silent_bind; [apply Hf|intro y].
    apply silent_bind; [exact IH|intro ys]. apply silent_ret.
Qed.

Create HintDb silent.
#[export] Hint Resolve silent_ret silent_addScore silent_push silent_ask
  : silent.

Ltac silent_step :=
  match goal with
  | |- silent (bind _ _) => apply silent_bind; [|intro]
  | |- silent (mapM _ _) => apply silent_mapM; intro
  | |- silent (match ?x with _ => _ end) => destruct x
  | |- silent _ => solve [auto with silent]
  end.

Lemma silent_check dns k domain : silent (check dns k domain).
Proof.
  destruct k; simpl;
    unfold checkSPF, checkDMARC, checkNS, checkCNAME, checkA, checkMX,
      reverseOrEmpty;
    repeat silent_step.
Qed.

Lemma console_check dns k domain s :
  console (exec (check dns k domain) s) = console s.
Proof. apply silent_check. Qed.

(** A call of [generateTrustReport] from a state with fresh accumulators:
    the score, the report and the queries are those of [final], and the
    printed lines come after what was printed before. *)
Lemma exec_generateTrustReport dns domain s :
  totalScore s = 0 -> report s = [] -> queries s = [] ->
  exec (generateTrustReport dns domain) s =
  {| totalScore := totalScore (final dns domain);
     report := report (final dns domain);
     queries := queries (final dns domain);
     console := (console s ++ reportHeader domain
                 ++ report (final dns domain)
                 ++ reportFooter (totalScore (final dns domain)))%list |}.
Proof.
  intros Ht Hr Hq.
  destruct (final_shape dns domain) as (-> & -> & ->).
  unfold generateTrustReport.
  repeat (rewrite exec_bind; cbv beta).
  rewrite exec_printReport.
  change (checkSPF dns) with (check dns SPF).
  change (checkDMARC dns) with (check dns DMARC).
  change (checkNS dns) with (check dns NS).
  change (checkCNAME dns) with (check dns CNAME).
  change (checkA dns) with (check dns A).
  change (checkMX dns) with (check dns MX).
  repeat (rewrite totalScore_check || rewrite report_check
          || rewrite queries_check || rewrite console_check).
  rewrite Ht, Hr, Hq. cbn [app].
  rewrite Z.add_0_l, <- !app_assoc. reflexivity.
Qed.

Lemma console_final dns domain :
  console (final dns domain) =
    (reportHeader domain ++ report (final dns domain)
     ++ reportFooter (totalScore (final dns domain)))%list.
Proof.
  unfold final at 1.
  now rewrite (exec_generateTrustReport dns domain start).
Qed.

(** X1. Whatever the resolver answers, the console output of a run is
    the three header lines, then the report lines in order, then the
    three footer lines whose middle one shows the final score: the checks
    themselves print nothing, so the run prints six lines more than the
    report holds. *)
Theorem console_is_header_report_footer dns domain :
  console (final dns domain) =
    (reportHeader domain ++ report (final dns domain)
     ++ reportFooter (totalScore (final dns domain)))%list
  /\ length (console (final dns domain)) =
     (length (report (final dns domain)) + 6)%nat
  /\ forall k, console (exec (check dns k domain) start) = [].
Proof.
  pose proof (console_final dns domain) as E.
  split; [exact E|]. split.
  - rewrite E. rewrite !length_app. simpl. lia.
  - intro k. apply console_check.
Qed.

(** *** The range of the score *)

Lemma delta_range dns k domain :
  lowest k <= delta dns k domain <= highest k
  /\ exists q, delta dns k domain = 5 * q.
Proof.
  destruct k; cbn [lowest highest].
  - destruct (checkSPF_cases dns domain) as [_ H].
    destruct (resolveTxt dns domain) as [records|error];
      [destruct (hasSpf records)
      |destruct (isENODATA error || isENOTFOUND error)];
      injection H as -> _;
      (split; [lia|]);
      first [now exists 2 | now exists (-2) | now exists 0].
  - destruct (checkDMARC_cases dns domain) as [_ H].
    destruct (resolveTxt dns _) as [records|error];
      [destruct (hasDmarc records)
      |destruct (isENODATA error || isENOTFOUND error)];
      injection H as -> _;
      (split; [lia|]);
      first [now exists 2 | now exists (-2) | now exists 0].
  - destruct (checkNS_cases dns domain) as [_ H].
    destruct (resolveNs dns domain) as [records|error];
      [destruct (isReliable records)|];
      injection H as -> _;
      (split; [lia|]);
      first [now exists 2 | now exists (-2) | now exists 0].
  - destruct (checkCNAME_cases dns domain) as [_ H].
    destruct (resolveCname dns _) as [records|error];
      [|destruct (isENODATA error), (isENOTFOUND error)];
      injection H as -> _;
      (split; [lia|]);
      first [now exists 1 | now exists (-3) | now exists 0].
  - pose proof (checkA_cases dns domain) as H.
    destruct (resolve4 dns domain) as [aRecords|error];
      [destruct (0 <? length aRecords)%nat;
       [destruct (5 <=? length aRecords)%nat;
        [|destruct (isStableIp (reverseLookupsOf dns aRecords))]|]
      |destruct (negb (isENODATA error) && negb (isENOTFOUND error))];
      injection H as -> _ _;
      (split; [lia|]);
      first [now exists 1 | now exists (-2) | now exists 0].
  - destruct (checkMX_cases dns domain) as [_ H].
    destruct (resolveMx dns domain) as [records|error];
      [destruct (0 <? length records)%nat
      |destruct (isENODATA error || isENOTFOUND error)];
      injection H as -> _;
      (split; [lia|]);
      first [now exists 1 | now exists (-1) | now exists 0].
Qed.

(** X2. Whatever the resolver answers, the final score lies between -60
    and 45 and is a multiple of 5; each check stays within its own two
    table entries; and both ends are reached (all six checks at their
    best give 45, all six at their worst give -60). *)
Theorem score_between_minus_60_and_45 dns domain :
  -60 <= totalScore (final dns domain) <= 45
  /\ (exists q, totalScore (final dns domain) = 5 * q)
  /\ (forall k, lowest k <= delta dns k domain <= highest k)
  /\ totalScore (final bestCase "example.com") = 45
  /\ totalScore (final worstCase "example.com") = -60.
Proof.
  destruct (final_shape dns domain) as (-> & _ & _).
  destruct (delta_range dns SPF domain) as [B1 [q1 E1]].
  destruct (delta_range dns DMARC domain) as [B2 [q2 E2]].
  destruct (delta_range dns NS domain) as [B3 [q3 E3]].
  destruct (delta_range dns CNAME domain) as [B4 [q4 E4]].
  destruct (delta_range dns A domain) as [B5 [q5 E5]].
  destruct (delta_range dns MX domain) as [B6 [q6 E6]].
  cbn [lowest highest] in *.
  split; [lia|]. split; [exists (q1 + q2 + q3 + q4 + q5 + q6); lia|].
  split; [intro k; apply delta_range|].
  split; vm_compute; reflexivity.
Qed.

(** *** Signs and deltas *)

Ltac sign_case P d :=
  solve [apply (P _ d);
         solve [reflexivity | intro; lia | intro; reflexivity]].

Lemma markedBySign_findings dns k domain :
  Forall markedBySign (findings dns k domain).
Proof.
  assert (P : forall line d,
             scoreDelta line = Some d ->
             (0 < d -> Js.startsWith line "✅ [+" = true) ->
             (d < 0 -> Js.startsWith line "❌ [-" = true) ->
             (d = 0 -> informational line = true) ->
             Forall markedBySign [line]).
  { intros line d H1 H2 H3 H4. constructor; [|constructor].
    exists d. auto. }
  destruct k.
  - destruct (checkSPF_cases dns domain) as [_ H].
    destruct (resolveTxt dns domain) as [records|error];
      [destruct (hasSpf records)
      |destruct (isENODATA error || isENOTFOUND error)];
      injection H as _ ->;
      first [sign_case P 10 | sign_case P (-10) | sign_case P 0].
  - destruct (checkDMARC_cases dns domain) as [_ H].
    destruct (resolveTxt dns _) as [records|error];
      [destruct (hasDmarc records)
      |destruct (isENODATA error || isENOTFOUND error)];
      injection H as _ ->;
      first [sign_case P 10 | sign_case P (-10) | sign_case P 0].
  - destruct (checkNS_cases dns domain) as [_ H].
    destruct (resolveNs dns domain) as [records|error];
      [destruct (isReliable records)|];
      injection H as _ ->;
      first [sign_case P 10 | sign_case P (-10) | sign_case P 0].
  - destruct (checkCNAME_cases dns domain) as [_ H].
    destruct (resolveCname dns _) as [records|error];
      [|destruct (isENODATA error), (isENOTFOUND error)];
      injection H as _ ->;
      first [sign_case P 5 | sign_case P (-15) | sign_case P 0].
  - pose proof (checkA_cases dns domain) as H.
    destruct (resolve4 dns domain) as [aRecords|error];
      [destruct (0 <? length aRecords)%nat;
       [destruct (5 <=? length aRecords)%nat;
        [|destruct (isStableIp (reverseLookupsOf dns aRecords))]|]
      |destruct (negb (isENODATA error) && negb (isENOTFOUND error))];
      injection H as _ -> _;
      first [sign_case P 5 | sign_case P (-10) | sign_case P 0
            | solve [constructor]].
  - destruct (checkMX_cases dns domain) as [_ H].
    destruct (resolveMx dns domain) as [records|error];
      [destruct (0 <? length records)%nat
      |destruct (isENODATA error || isENOTFOUND error)];
      injection H as _ ->;
      first [sign_case P 5 | sign_case P (-5) | sign_case P 0].
Qed.

(** X3. In every report the sign a line opens with agrees with the delta
    in its label: the check mark comes with a positive delta, the cross
    with a negative one, and the warning or information sign with 0. *)
Theorem every_line_marked_by_sign dns domain :
  Forall markedBySign (report (final dns domain)).
Proof.
  destruct (final_shape dns domain) as (_ & -> & _).
  repeat (apply Forall_app; split); apply markedBySign_findings.
Qed.

(** *** The queries of a run *)

Lemma filter_isReverse_map aRecords :
  filter isReverse (map QReverse aRecords) = map QReverse aRecords.
Proof. induction aRecords as [|ip rest IH]; simpl; now rewrite ?IH. Qed.

(** The reverse lookups of the A check: one per address when the A
    lookup returns one to four addresses, none otherwise. *)
Lemma asked_A dns domain :
  asked dns A domain =
  Q4 domain ::
  match resolve4 dns domain with
  | Fulfilled aRecords =>
      if ((1 <=? length aRecords) && (length aRecords <=? 4))%nat
      then map QReverse aRecords else []
  | Rejected _ => []
  end.
Proof.
  pose proof (checkA_cases dns domain) as E.
  destruct (resolve4 dns domain) as [aRecords|error].
  - destruct aRecords as [|a1 [|a2 [|a3 [|a4 [|a5 rest]]]]];
      cbn [length Nat.ltb Nat.leb andb] in *;
      try (destruct (isStableIp _));
      now injection E as _ _ ->.
  - destruct (negb (isENODATA error) && negb (isENOTFOUND error));
      now injection E as _ _ ->.
Qed.

(** X4. A run asks the resolver between six and ten questions: the six
    primary lookups, and between the A and the MX lookup one reverse
    lookup per returned address, in the order returned, exactly when the
    A lookup returns one to four addresses; never more than four. *)
Theorem reverse_lookups_only_for_one_to_four_addresses dns domain :
  let reverseQueries :=
    match resolve4 dns domain with
    | Fulfilled aRecords =>
        if ((1 <=? length aRecords) && (length aRecords <=? 4))%nat
        then map QReverse aRecords else []
    | Rejected _ => []
    end in
  queries (final dns domain) =
    ([QTxt domain; QTxt ("_dmarc." ++ domain); QNs domain;
      QCname ("www." ++ domain); Q4 domain]
     ++ reverseQueries ++ [QMx domain])%list
  /\ filter isReverse (queries (final dns domain)) = reverseQueries
  /\ (length reverseQueries <= 4)%nat
  /\ (6 <= length (queries (final dns domain)) <= 10)%nat.
Proof.
  intro reverseQueries.
  assert (Hr : filter isReverse reverseQueries = reverseQueries).
  { unfold reverseQueries. destruct (resolve4 dns domain); [|reflexivity].
    destruct (_ && _)%nat; [apply filter_isReverse_map|reflexivity]. }
  assert (Hn : (length reverseQueries <= 4)%nat).
  { unfold reverseQueries. destruct (resolve4 dns domain) as [l|];
      [|simpl; lia].
    destruct ((1 <=? length l) && (length l <=? 4))%nat eqn:E; [|simpl; lia].
    apply andb_true_iff in E. destruct E as [_ E].
    apply Nat.leb_le in E. now rewrite length_map. }
  rewrite queries_final, asked_A. fold reverseQueries.
  split; [reflexivity|]. split.
  - cbn [app filter isReverse]. rewrite filter_app, Hr. cbn.
    apply app_nil_r.
  - split; [exact Hn|]. cbn [app length]. rewrite length_app. simpl. lia.
Qed.

(** *** Each check reads its own lookups only *)

Lemma reverseLookupsOf_ext dns1 dns2 aRecords :
  (forall ip, In ip aRecords -> reverse dns1 ip = reverse dns2 ip) ->
  reverseLookupsOf dns1 aRecords = reverseLookupsOf dns2 aRecords.
Proof.
  intro H. unfold reverseLookupsOf. apply map_ext_in.
  intros ip Hin. now rewrite (H ip Hin).
Qed.

(** X5. The outcome of a check depends on the answers to its own lookups
    only: two resolvers that give the same answer to every query the
    check issues (for the A check: the A lookup and, when it returns one
    to four addresses, the reverse lookups of those addresses) give that
    check the same delta, the same findings and the same queries,
    whatever they answer to any other lookup. *)
Theorem check_reads_own_lookups_only dns1 dns2 k domain
  (H : sameAnswers dns1 dns2 k domain) :
  delta dns1 k domain = delta dns2 k domain
  /\ findings dns1 k domain = findings dns2 k domain
  /\ asked dns1 k domain = asked dns2 k domain.
Proof.
  unfold sameAnswers in H. destruct k.
  - destruct (checkSPF_cases dns1 domain) as [Q1 E1],
      (checkSPF_cases dns2 domain) as [Q2 E2].
    rewrite Q1 in H. specialize (H _ (or_introl eq_refl)).
    injection H as H.
    rewrite H, <- E2 in E1. injection E1 as -> ->. now rewrite Q1, Q2.
  - destruct (checkDMARC_cases dns1 domain) as [Q1 E1],
      (checkDMARC_cases dns2 domain) as [Q2 E2].
    rewrite Q1 in H. specialize (H _ (or_introl eq_refl)).
    assert (H' : resolveTxt dns1 ("_dmarc." ++ domain)
                 = resolveTxt dns2 ("_dmarc." ++ domain))
      by (injection H; intro X; exact X).
    rewrite H', <- E2 in E1. injection E1 as -> ->. now rewrite Q1, Q2.
  - destruct (checkNS_cases dns1 domain) as [Q1 E1],
      (checkNS_cases dns2 domain) as [Q2 E2].
    rewrite Q1 in H. specialize (H _ (or_introl eq_refl)).
    injection H as H.
    rewrite H, <- E2 in E1. injection E1 as -> ->. now rewrite Q1, Q2.
  - destruct (checkCNAME_cases dns1 domain) as [Q1 E1],
      (checkCNAME_cases dns2 domain) as [Q2 E2].
    rewrite Q1 in H. specialize (H _ (or_introl eq_refl)).
    assert (H' : resolveCname dns1 ("www." ++ domain)
                 = resolveCname dns2 ("www." ++ domain))
      by (injection H; intro X; exact X).
    rewrite H', <- E2 in E1. injection E1 as -> ->. now rewrite Q1, Q2.
  - rewrite asked_A in H.
    pose proof (H _ (or_introl eq_refl)) as Ha. injection Ha as Ha.
    pose proof (checkA_cases dns1 domain) as E1.
    pose proof (checkA_cases dns2 domain) as E2.
    rewrite Ha in H, E1.
    destruct (resolve4 dns2 domain) as [aRecords|error].
    + destruct (0 <? length aRecords)%nat eqn:E0;
        [destruct (5 <=? length aRecords)%nat eqn:E5|].
      * rewrite <- E2 in E1. now injection E1 as -> -> ->.
      * assert (Hr : reverseLookupsOf dns1 aRecords
                     = reverseLookupsOf dns2 aRecords).
        { apply reverseLookupsOf_ext. intros ip Hin.
          apply Nat.ltb_lt in E0. apply Nat.leb_gt in E5.
          replace ((1 <=? length aRecords) && (length aRecords <=? 4))%nat
            with true in H
            by (symmetry; apply andb_true_iff; split; apply Nat.leb_le; lia).
          assert (Hq : In (QReverse ip)
                          (Q4 domain :: map QReverse aRecords))
            by (right; now apply in_map).
          specialize (H _ Hq). now injection H as H. }
        rewrite Hr, <- E2 in E1. now injection E1 as -> -> ->.
      * rewrite <- E2 in E1. now injection E1 as -> -> ->.
    + rewrite <- E2 in E1. now injection E1 as -> -> ->.
  - destruct (checkMX_cases dns1 domain) as [Q1 E1],
      (checkMX_cases dns2 domain) as [Q2 E2].
    rewrite Q1 in H. specialize (H _ (or_introl eq_refl)).
    injection H as H.
    rewrite H, <- E2 in E1. injection E1 as -> ->. now rewrite Q1, Q2.
Qed.

Lemma check_reads_own_lookups_only_witness :
  reverse oneAddressQuiet "203.0.113.9" <> reverse oneAddressBusy "203.0.113.9"
  /\ resolveMx oneAddressQuiet "example.com"
     <> resolveMx oneAddressBusy "example.com"
  /\ delta oneAddressQuiet A "example.com"
     = delta oneAddressBusy A "example.com"
  /\ findings oneAddressQuiet A "example.com"
     = findings oneAddressBusy A "example.com"
  /\ asked oneAddressQuiet A "example.com"
     = [Q4 "example.com"; QReverse "198.51.100.1"].
Proof.
  split; [discriminate|]. split; [discriminate|].
  assert (H : sameAnswers oneAddressQuiet oneAddressBusy A "example.com").
  { intros q [<-|[<-|[]]]; reflexivity. }
  destruct (check_reads_own_lookups_only
              oneAddressQuiet oneAddressBusy A "example.com" H)
    as (Hd & Hf & _).
  split; [exact Hd|]. split; [exact Hf|reflexivity].
Defined.

(** *** DMARC, NS and the A check without addresses *)

Lemma hasDmarc_spec records :
  hasDmarc records = true <->
  exists record,
    In record records /\ Js.startsWith (Js.join "" record) "v=DMARC1" = true.
Proof. unfold hasDmarc. apply existsb_exists. Qed.

(** X6. The DMARC check asks for the TXT records of [_dmarc.<domain>].
    On success it adds 10 exactly when some record, its segments
    concatenated, starts with [v=DMARC1] (the comparison is
    case-sensitive), and subtracts 10 otherwise, also for an empty answer;
    a rejection with ENODATA or ENOTFOUND subtracts 10; any other
    rejection leaves the score and appends a warning line. *)
Theorem dmarc_outcomes dns domain :
  asked dns DMARC domain = [QTxt ("_dmarc." ++ domain)]
  /\ (forall records,
        resolveTxt dns ("_dmarc." ++ domain) = Fulfilled records ->
        let present :=
          exists record,
            In record records
            /\ Js.startsWith (Js.join "" record) "v=DMARC1" = true in
        (present <->
           delta dns DMARC domain = 10
           /\ findings dns DMARC domain = [dmarcPresentLine])
        /\ (~ present <->
              delta dns DMARC domain = -10
              /\ findings dns DMARC domain = [dmarcAbsentLine]))
  /\ (forall error,
        resolveTxt dns ("_dmarc." ++ domain) = Rejected error ->
        isENODATA error = true \/ isENOTFOUND error = true ->
        delta dns DMARC domain = -10
        /\ findings dns DMARC domain = [dmarcAbsentLine])
  /\ (forall error,
        resolveTxt dns ("_dmarc." ++ domain) = Rejected error ->
        isTransient error = true ->
        delta dns DMARC domain = 0
        /\ findings dns DMARC domain = [dmarcErrorLine error]).
Proof.
  destruct (checkDMARC_cases dns domain) as [Hq E].
  split; [exact Hq|]. repeat apply conj.
  - intros records Hr present. rewrite Hr in E.
    pose proof (hasDmarc_spec records) as S. fold present in S.
    destruct (hasDmarc records); injection E as -> ->.
    + split; split; try easy.
      * intros _. now apply S.
      * intro Hn. exfalso. now apply Hn, S.
    + split; split; try easy.
      * intro Hp. apply S in Hp. discriminate.
      * intros _ Hp. apply S in Hp. discriminate.
  - intros error Hr Hc. rewrite Hr in E.
    replace (isENODATA error || isENOTFOUND error) with true in E
      by (destruct Hc as [-> | ->]; now rewrite ?orb_true_r).
    now injection E as -> ->.
  - intros error Hr Ht. destruct (transient_codes error Ht) as [Hd Hf].
    rewrite Hr, Hd, Hf in E. now injection E as -> ->.
Qed.

(** DMARC answers for the [_dmarc.] name; everything else times out. *)
Lemma dmarc_outcomes_witness :
  let dmarcOnly answer :=
    scripted (Rejected timedOut) answer (Rejected timedOut)
             (Rejected timedOut) (Rejected timedOut) (Rejected timedOut)
             (fun _ => Rejected timedOut) in
  delta (dmarcOnly (Fulfilled [["v=DMARC1; p=reject"]])) DMARC "example.com"
  = 10
  /\ delta (dmarcOnly (Fulfilled [["v=dmarc1; p=reject"]])) DMARC
           "example.com" = -10
  /\ delta (dmarcOnly (Fulfilled [])) DMARC "example.com" = -10
  /\ delta (dmarcOnly (Rejected noData)) DMARC "example.com" = -10
  /\ delta (dmarcOnly (Rejected timedOut)) DMARC "example.com" = 0.
Proof.
  intro dmarcOnly. repeat apply conj.
  - destruct (dmarc_outcomes
                (dmarcOnly (Fulfilled [["v=DMARC1; p=reject"]]))
                "example.com") as (_ & H & _).
    destruct (H [["v=DMARC1; p=reject"]] eq_refl) as [[Hp _] _].
    apply Hp. exists ["v=DMARC1; p=reject"]. split; [now left|reflexivity].
  - destruct (dmarc_outcomes
                (dmarcOnly (Fulfilled [["v=dmarc1; p=reject"]]))
                "example.com") as (_ & H & _).
    destruct (H [["v=dmarc1; p=reject"]] eq_refl) as [_ [Hn _]].
    apply Hn. intros (record & [<-|[]] & Hs). discriminate Hs.
  - destruct (dmarc_outcomes (dmarcOnly (Fulfilled [])) "example.com")
      as (_ & H & _).
    destruct (H [] eq_refl) as [_ [Hn _]].
    apply Hn. intros (record & [] & _).
  - destruct (dmarc_outcomes (dmarcOnly (Rejected noData)) "example.com")
      as (_ & _ & H & _).
    exact (proj1 (H noData eq_refl (or_introl eq_refl))).
  - destruct (dmarc_outcomes (dmarcOnly (Rejected timedOut)) "example.com")
      as (_ & _ & _ & H).
    exact (proj1 (H timedOut eq_refl eq_refl)).
Defined.

Lemma isReliable_spec nsRecords :
  isReliable nsRecords = true <->
  exists ns provider,
    In ns nsRecords /\ In provider RELIABLE_NS_PROVIDERS
    /\ Js.includes (Js.toLowerCase ns) provider = true.
Proof.
  unfold isReliable. rewrite existsb_exists. split.
  - intros (ns & Hin & Hex). apply existsb_exists in Hex.
    destruct Hex as (provider & Hp & Hinc). now exists ns, provider.
  - intros (ns & provider & Hin & Hp & Hinc). exists ns. split; [exact Hin|].
    apply existsb_exists. now exists provider.
Qed.

(** X7. The NS check adds 10 exactly when some returned name server
    contains, in any letter case, one of cloudflare, aws, azure, google
    as a substring, and subtracts 10 otherwise (so an empty answer is
    penalised); the line lists the name servers.  Unlike the SPF, DMARC,
    CNAME and MX checks it never penalises a rejected lookup: every
    rejection, ENOTFOUND and ENODATA included, leaves the score and
    appends the warning line. *)
Theorem ns_outcomes dns domain :
  asked dns NS domain = [QNs domain]
  /\ (forall nsRecords,
        resolveNs dns domain = Fulfilled nsRecords ->
        let reliable :=
          exists ns provider,
            In ns nsRecords /\ In provider RELIABLE_NS_PROVIDERS
            /\ Js.includes (Js.toLowerCase ns) provider = true in
        (reliable <->
           delta dns NS domain = 10
           /\ findings dns NS domain = [nsReliableLine nsRecords])
        /\ (~ reliable <->
              delta dns NS domain = -10
              /\ findings dns NS domain = [nsUnreliableLine nsRecords]))
  /\ (resolveNs dns domain = Fulfilled [] ->
      delta dns NS domain = -10)
  /\ (forall error,
        resolveNs dns domain = Rejected error ->
        delta dns NS domain = 0
        /\ findings dns NS domain = [nsErrorLine error]
        /\ informational (nsErrorLine error) = true).
Proof.
  destruct (checkNS_cases dns domain) as [Hq E].
  split; [exact Hq|]. repeat apply conj.
  - intros nsRecords Hr reliable. rewrite Hr in E.
    pose proof (isReliable_spec nsRecords) as S. fold reliable in S.
    destruct (isReliable nsRecords); injection E as -> ->.
    + split; split; try easy.
      * intros _. now apply S.
      * intro Hn. exfalso. now apply Hn, S.
    + split; split; try easy.
      * intro Hp. apply S in Hp. discriminate.
      * intros _ Hp. apply S in Hp. discriminate.
  - intro Hr. rewrite Hr in E. now injection E as -> _.
  - intros error Hr. rewrite Hr in E. now injection E as -> ->.
Qed.

Lemma ns_outcomes_witness :
  let nsOnly answer :=
    scripted (Rejected timedOut) (Rejected timedOut) answer
             (Rejected timedOut) (Rejected timedOut) (Rejected timedOut)
             (fun _ => Rejected timedOut) in
  delta (nsOnly (Fulfilled ["ns1.example.org"; "NS-1234.AWSDNS-56.ORG"]))
        NS "example.com" = 10
  /\ findings (nsOnly (Fulfilled ["ns1.lawsuit.example"])) NS "example.com"
     = ["✅ [+10] 신뢰할 수 있는 네임서버를 사용합니다. (ns1.lawsuit.example)"]
  /\ delta (nsOnly (Fulfilled ["ns1.example.org"])) NS "example.com" = -10
  /\ delta (nsOnly (Fulfilled [])) NS "example.com" = -10
  /\ delta (nsOnly (Rejected notFound)) NS "example.com" = 0.
Proof.
  intro nsOnly. repeat apply conj.
  - destruct (ns_outcomes
                (nsOnly (Fulfilled ["ns1.example.org";
                                    "NS-1234.AWSDNS-56.ORG"]))
                "example.com") as (_ & H & _).
    destruct (H ["ns1.example.org"; "NS-1234.AWSDNS-56.ORG"] eq_refl)
      as [[Hp _] _].
    apply Hp. exists "NS-1234.AWSDNS-56.ORG", "aws".
    repeat split; simpl; auto.
  - destruct (ns_outcomes (nsOnly (Fulfilled ["ns1.lawsuit.example"]))
                "example.com") as (_ & H & _).
    destruct (H ["ns1.lawsuit.example"] eq_refl) as [[Hp _] _].
    apply Hp. exists "ns1.lawsuit.example", "aws".
    repeat split; simpl; auto.
  - destruct (ns_outcomes (nsOnly (Fulfilled ["ns1.example.org"]))
                "example.com") as (_ & H & _).
    destruct (H ["ns1.example.org"] eq_refl) as [_ [Hn _]].
    apply Hn. intros (ns & provider & [<-|[]] & Hp & Hinc).
    simpl in Hp. destruct Hp as [<-|[<-|[<-|[<-|[]]]]]; discriminate Hinc.
  - destruct (ns_outcomes (nsOnly (Fulfilled [])) "example.com")
      as (_ & _ & H & _).
    exact (H eq_refl).
  - destruct (ns_outcomes (nsOnly (Rejected notFound)) "example.com")
      as (_ & _ & _ & H).
    exact (proj1 (H notFound eq_refl)).
Defined.

(** X8. The A check lowers the score exactly when the A lookup returns
    five or more entries, and raises it only when it returns one to four;
    an empty answer appends the no-address warning line, a rejection with
    an absence code appends nothing, any other rejection appends the
    error line, and in these three cases the score stays and no reverse
    lookup is issued. *)
Theorem a_check_without_addresses dns domain :
  (delta dns A domain < 0 <->
     exists aRecords,
       resolve4 dns domain = Fulfilled aRecords
       /\ (5 <= length aRecords)%nat)
  /\ (0 < delta dns A domain ->
      exists aRecords,
        resolve4 dns domain = Fulfilled aRecords
        /\ (1 <= length aRecords <= 4)%nat)
  /\ (resolve4 dns domain = Fulfilled [] ->
      delta dns A domain = 0 /\ findings dns A domain = [aNoneLine]
      /\ asked dns A domain = [Q4 domain])
  /\ (forall error,
        resolve4 dns domain = Rejected error ->
        isENODATA error = true \/ isENOTFOUND error = true ->
        delta dns A domain = 0 /\ findings dns A domain = []
        /\ asked dns A domain = [Q4 domain])
  /\ (forall error,
        resolve4 dns domain = Rejected error ->
        isTransient error = true ->
        delta dns A domain = 0 /\ findings dns A domain = [aErrorLine error]
        /\ asked dns A domain = [Q4 domain]).
Proof.
  pose proof (checkA_cases dns domain) as E.
  split; [|split; [|split; [|split]]].
  - destruct (resolve4 dns domain) as [aRecords|error].
    + destruct (0 <? length aRecords)%nat eqn:E0;
        [destruct (5 <=? length aRecords)%nat eqn:E5;
         [|destruct (isStableIp (reverseLookupsOf dns aRecords))]|];
        injection E as -> _ _; split; try lia.
      * intros _. exists aRecords. apply Nat.leb_le in E5. now split.
      * intros (l & [= <-] & Hl). apply Nat.leb_gt in E5. lia.
      * intros (l & [= <-] & Hl). apply Nat.leb_gt in E5. lia.
      * intros (l & [= <-] & Hl). apply Nat.ltb_ge in E0. lia.
    + destruct (negb (isENODATA error) && negb (isENOTFOUND error));
        injection E as -> _ _; split; try lia;
        intros (l & Hl & _); discriminate.
  - destruct (resolve4 dns domain) as [aRecords|error].
    + destruct (0 <? length aRecords)%nat eqn:E0;
        [destruct (5 <=? length aRecords)%nat eqn:E5;
         [|destruct (isStableIp (reverseLookupsOf dns aRecords))]|];
        injection E as -> _ _; intro Hpos; try lia.
      exists aRecords. apply Nat.ltb_lt in E0. apply Nat.leb_gt in E5.
      split; [reflexivity|lia].
    + destruct (negb (isENODATA error) && negb (isENOTFOUND error));
        injection E as -> _ _; lia.
  - intro Hr. rewrite Hr in E. now injection E as -> -> ->.
  - intros error Hr Hc. rewrite Hr in E.
    replace (negb (isENODATA error) && negb (isENOTFOUND error))
      with false in E
      by (destruct Hc as [-> | ->]; now rewrite ?andb_false_r).
    now injection E as -> -> ->.
  - intros error Hr Ht. unfold isTransient in Ht.
    rewrite Hr, Ht in E. now injection E as -> -> ->.
Qed.

Lemma a_check_without_addresses_witness :
  findings (addressesOnly [] (fun _ => Rejected timedOut)) A "example.com"
  = ["⚠️ [0] A 레코드를 찾을 수 없습니다."]
  /\ findings (failing noData) A "example.com" = []
  /\ findings (failing timedOut) A "example.com"
     = ["⚠️ [0] A 레코드 확인 중 오류 발생: query timed out"]
  /\ (exists aRecords,
        resolve4 fiveCopies "example.com" = Fulfilled aRecords
        /\ (5 <= length aRecords)%nat).
Proof.
  repeat apply conj.
  - destruct (a_check_without_addresses
                (addressesOnly [] (fun _ => Rejected timedOut))
                "example.com") as (_ & _ & H & _).
    exact (proj1 (proj2 (H eq_refl))).
  - destruct (a_check_without_addresses (failing noData) "example.com")
      as (_ & _ & _ & H & _).
    exact (proj1 (proj2 (H noData eq_refl (or_introl eq_refl)))).
  - destruct (a_check_without_addresses (failing timedOut) "example.com")
      as (_ & _ & _ & _ & H).
    exact (proj1 (proj2 (H timedOut eq_refl eq_refl))).
  - destruct (a_check_without_addresses fiveCopies "example.com")
      as (H & _).
    apply H. reflexivity.
Defined.

(** *** One round of the front end *)

Lemma run_generateTrustReport dns domain s :
  generateTrustReport dns domain s =
  (tt, exec (generateTrustReport dns domain) s).
Proof.
  unfold exec. now destruct (generateTrustReport dns domain s) as [[] s'].
Qed.

(** The state after the extraction notice and the analysis of
    [hostname]. *)
Lemma exec_after_notice dns hostname :
  exec (generateTrustReport dns hostname)
       (snd (log (extractionNotice hostname) start)) =
  {| totalScore := totalScore (final dns hostname);
     report := report (final dns hostname);
     queries := queries (final dns hostname);
     console := extractionNotice hostname :: console (final dns hostname) |}.
Proof.
  rewrite exec_generateTrustReport; [|reflexivity..].
  now rewrite (console_final dns hostname).
Qed.

(** A round of [startAnalyzer] from the initial state, case by case. *)
Lemma startAnalyzer_run dns trim urlHostname input :
  startAnalyzer dns trim urlHostname input start =
  let trimmedInput := trim input in
  if String.eqb (Js.toLowerCase trimmedInput) "exit" then (Close, start)
  else if String.eqb trimmedInput "" then
    (Prompt, {| totalScore := 0; report := []; queries := [];
                console := [emptyInputWarning] |})
  else
    match urlHostname (potentialUrl trimmedInput) with
    | Some hostname =>
        if negb (String.eqb hostname (beforeSlash trimmedInput)) then
          (Prompt,
           {| totalScore := totalScore (final dns hostname);
              report := report (final dns hostname);
              queries := queries (final dns hostname);
              console := extractionNotice hostname
                         :: console (final dns hostname) |})
        else (Prompt, final dns trimmedInput)
    | None => (Prompt, final dns trimmedInput)
    end.
Proof.
  unfold startAnalyzer. cbv zeta.
  destruct (String.eqb (Js.toLowerCase (trim input)) "exit"); [reflexivity|].
  destruct (String.eqb (trim input) ""); [reflexivity|].
  fold (potentialUrl (trim input)).
  destruct (urlHostname (potentialUrl (trim input))) as [hostname|].
  - destruct (negb (String.eqb hostname (beforeSlash (trim input)))).
    + unfold bind at 1. unfold bind at 1.
      fold (extractionNotice hostname).
      destruct (log (extractionNotice hostname) start) as [[] s1] eqn:E1.
      unfold ret at 1. unfold bind at 1.
      rewrite run_generateTrustReport. unfold ret.
      replace s1 with (snd (log (extractionNotice hostname) start))
        by now rewrite E1.
      now rewrite exec_after_notice.
    + unfold bind at 1. unfold ret at 1. unfold bind at 1.
      now rewrite run_generateTrustReport.
  - unfold bind at 1. unfold ret at 1. unfold bind at 1.
    now rewrite run_generateTrustReport.
Qed.

Lemma queries_final_nonempty dns domain : queries (final dns domain) <> [].
Proof. rewrite queries_final. discriminate. Qed.

(** X9. A round closes the interface exactly when the trimmed input,
    lower-cased, is [exit], and then nothing is printed or asked.  The
    round asks the resolver nothing exactly when the input is [exit] or
    empty after trimming; every other input leads to one analysis. *)
Theorem round_closes_only_on_exit dns trim urlHostname input :
  let round := startAnalyzer dns trim urlHostname input start in
  (fst round = Close <-> Js.toLowerCase (trim input) = "exit")
  /\ (fst round = Close -> snd round = start)
  /\ (queries (snd round) = [] <->
      Js.toLowerCase (trim input) = "exit" \/ trim input = "")
  /\ (queries (snd round) <> [] ->
      exists domainToAnalyze,
        queries (snd round) = queries (final dns domainToAnalyze)
        /\ report (snd round) = report (final dns domainToAnalyze)
        /\ totalScore (snd round) = totalScore (final dns domainToAnalyze)).
Proof.
  intro round. unfold round. rewrite startAnalyzer_run. cbv zeta.
  destruct (String.eqb_spec (Js.toLowerCase (trim input)) "exit") as [He|He].
  { cbn [fst snd queries start].
    split; [split; auto|]. split; [auto|].
    split; [split; [intros _; now left|reflexivity]|].
    intro H. now contradiction H. }
  destruct (String.eqb_spec (trim input) "") as [Hn|Hn].
  { cbn [fst snd queries].
    split; [split; [discriminate|contradiction]|]. split; [discriminate|].
    split; [split; [intros _; now right|reflexivity]|].
    intro H. now contradiction H. }
  assert (K : forall d (s : Run),
             queries s = queries (final dns d) ->
             report s = report (final dns d) ->
             totalScore s = totalScore (final dns d) ->
             (Prompt = Close <-> Js.toLowerCase (trim input) = "exit")
             /\ (Prompt = Close -> s = start)
             /\ (queries s = [] <->
                 Js.toLowerCase (trim input) = "exit" \/ trim input = "")
             /\ (queries s <> [] ->
                 exists domainToAnalyze,
                   queries s = queries (final dns domainToAnalyze)
                   /\ report s = report (final dns domainToAnalyze)
                   /\ totalScore s = totalScore (final dns domainToAnalyze))).
  { intros d s Hq Hr Ht. split; [split; [discriminate|contradiction]|].
    split; [discriminate|]. split.
    - split.
      + intro H0. rewrite Hq in H0. now apply queries_final_nonempty in H0.
      + intros [H0|H0]; contradiction.
    - intros _. now exists d. }
  destruct (urlHostname (potentialUrl (trim input))) as [hostname|].
  - destruct (negb (String.eqb hostname (beforeSlash (trim input)))).
    + apply (K hostname); reflexivity.
    + apply (K (trim input)); reflexivity.
  - apply (K (trim input)); reflexivity.
Qed.

(** X10. Which name a round analyses, for an input that is neither
    [exit] nor empty after trimming: the host name of the URL when the URL
    parses and its host name differs from the part of the input before
    the first slash (the extraction notice is printed first); otherwise
    the trimmed input as it is.  In particular an input whose part before
    the first slash already is the host name is analysed whole, path
    included, and an input that does not parse as a URL is analysed as
    typed. *)
Theorem round_analyses_hostname_or_input dns trim urlHostname input
  (Hexit : Js.toLowerCase (trim input) <> "exit")
  (Hempty : trim input <> "") :
  let trimmedInput := trim input in
  let round := startAnalyzer dns trim urlHostname input start in
  (forall hostname,
     urlHostname (potentialUrl trimmedInput) = Some hostname ->
     hostname <> beforeSlash trimmedInput ->
     fst round = Prompt
     /\ queries (snd round) = queries (final dns hostname)
     /\ report (snd round) = report (final dns hostname)
     /\ console (snd round) =
        extractionNotice hostname :: console (final dns hostname))
  /\ (urlHostname (potentialUrl trimmedInput)
      = Some (beforeSlash trimmedInput) ->
      round = (Prompt, final dns trimmedInput))
  /\ (urlHostname (potentialUrl trimmedInput) = None ->
      round = (Prompt, final dns trimmedInput)).
Proof.
  intros trimmedInput round. unfold round, trimmedInput.
  rewrite startAnalyzer_run. cbv zeta.
  destruct (String.eqb_spec (Js.toLowerCase (trim input)) "exit");
    [contradiction|].
  destruct (String.eqb_spec (trim input) ""); [contradiction|].
  split; [|split].
  - intros hostname -> Hd.
    destruct (String.eqb_spec hostname (beforeSlash (trim input)));
      [contradiction|].
    cbn [negb fst snd queries report console]. repeat split.
  - intros ->. now rewrite String.eqb_refl.
  - intros ->. reflexivity.
Qed.

Lemma round_closes_only_on_exit_witness :
  startAnalyzer (failing timedOut) (fun s => s) toyHostname "Exit" start
  = (Close, start).
Proof.
  destruct (round_closes_only_on_exit
              (failing timedOut) (fun s => s) toyHostname "Exit")
    as (Hc & Hs & _).
  apply injective_projections.
  - apply Hc. reflexivity.
  - apply Hs, Hc. reflexivity.
Defined.

Lemma round_analyses_hostname_or_input_witness :
  let run input :=
    startAnalyzer (failing timedOut) (fun s => s) toyHostname input start in
  queries (snd (run "http://Example.com/login")) =
    queries (final (failing timedOut) "example.com")
  /\ hd_error (queries (snd (run "example.com/login"))) =
     Some (QTxt "example.com/login")
  /\ hd_error (queries (snd (run "httpbin.org"))) = Some (QTxt "httpbin.org").
Proof.
  intro run. repeat apply conj.
  - assert (H1 : Js.toLowerCase "http://Example.com/login" <> "exit")
      by discriminate.
    assert (H2 : "http://Example.com/login" <> "") by discriminate.
    destruct (round_analyses_hostname_or_input
                (failing timedOut) (fun s => s) toyHostname
                "http://Example.com/login" H1 H2) as (H & _).
    refine (proj1 (proj2 (H "example.com" eq_refl _))). discriminate.
  - assert (H1 : Js.toLowerCase "example.com/login" <> "exit")
      by discriminate.
    assert (H2 : "example.com/login" <> "") by discriminate.
    destruct (round_analyses_hostname_or_input
                (failing timedOut) (fun s => s) toyHostname
                "example.com/login" H1 H2) as (_ & H & _).
    unfold run. rewrite (H eq_refl). reflexivity.
  - assert (H1 : Js.toLowerCase "httpbin.org" <> "exit") by discriminate.
    assert (H2 : "httpbin.org" <> "") by discriminate.
    destruct (round_analyses_hostname_or_input
                (failing timedOut) (fun s => s) toyHostname
                "httpbin.org" H1 H2) as (_ & _ & H).
    unfold run. rewrite (H eq_refl). reflexivity.
Defined.

(** ** Properties of the WHOIS analyzer *)

Section WhoisProperties.

Context {Date : Type}.
Variable env : Whois.Platform Date.

Lemma validDate_none info candidates :
  Whois.validDate env info candidates = None <->
  forall key value,
    In key candidates -> info key = Some value ->
    Whois.dayjs env value = None.
Proof.
  induction candidates as [|key rest IH]; simpl.
  - split; [intros _ k v []|reflexivity].
  - destruct (info key) as [value|] eqn:Ek.
    + destruct (Whois.dayjs env value) as [parsed|] eqn:Ed.
      * split; [discriminate|]. intro H.
        specialize (H key value (or_introl eq_refl) Ek). congruence.
      * rewrite IH. split.
        -- intros H k v [<-|Hin] Hk; [congruence|eauto].
        -- intros H k v Hin Hk. eauto.
    + rewrite IH. split.
      * intros H k v [<-|Hin] Hk; [congruence|eauto].
      * intros H k v Hin Hk. eauto.
Qed.

Lemma validDate_some info candidates d :
  Whois.validDate env info candidates = Some d <->
  exists before key after value,
    candidates = (before ++ key :: after)%list
    /\ info key = Some value
    /\ Whois.dayjs env value = Some d
    /\ Whois.validDate env info before = None.
Proof.
  induction candidates as [|key rest IH]; simpl.
  - split; [discriminate|].
    intros (before & k & after & v & E & _). now destruct before.
  - split.
    + intro H. destruct (info key) as [value|] eqn:Ek.
      * destruct (Whois.dayjs env value) as [parsed|] eqn:Ed.
        -- injection H as <-. now exists [], key, rest, value.
        -- apply IH in H.
           destruct H as (before & k & after & v & -> & Hk & Hd & Hb).
           exists (key :: before), k, after, v.
           repeat split; auto. simpl. now rewrite Ek, Ed.
      * apply IH in H.
        destruct H as (before & k & after & v & -> & Hk & Hd & Hb).
        exists (key :: before), k, after, v.
        repeat split; auto. simpl. now rewrite Ek.
    + intros (before & k & after & v & E & Hk & Hd & Hb).
      destruct before as [|b before']; simpl in E.
      * injection E as <- <-. now rewrite Hk, Hd.
      * injection E as <- ->.
        simpl in Hb. destruct (info key) as [value|].
        -- destruct (Whois.dayjs env value); [discriminate|].
           apply IH. now exists before', k, after, v.
        -- apply IH. now exists before', k, after, v.
Qed.

(** X11. [validDate] returns the date of the first candidate key, in the
    order of the candidate list, that the record has with a parsable
    date: keys the record lacks and keys whose text does not parse are
    passed over; it returns nothing exactly when no candidate key has a
    parsable date. *)
Theorem validDate_first_parsable info candidates :
  (forall d,
     Whois.validDate env info candidates = Some d <->
     exists before key after value,
       candidates = (before ++ key :: after)%list
       /\ info key = Some value
       /\ Whois.dayjs env value = Some d
       /\ forall k v, In k before -> info k = Some v ->
                      Whois.dayjs env v = None)
  /\ (Whois.validDate env info candidates = None <->
      forall key value,
        In key candidates -> info key = Some value ->
        Whois.dayjs env value = None).
Proof.
  split; [|apply validDate_none].
  intro d. rewrite validDate_some. split.
  - intros (before & key & after & value & E & Hk & Hd & Hb).
    exists before, key, after, value. repeat split; auto.
    now apply validDate_none.
  - intros (before & key & after & value & E & Hk & Hd & Hb).
    exists before, key, after, value. repeat split; auto.
    now apply validDate_none.
Qed.

Lemma flagsAtMost_creation createdDate acc :
  flagsAtMost 30 acc (Whois.scoreCreation env createdDate acc).
Proof.
  unfold Whois.scoreCreation. destruct createdDate as [d|].
  - destruct (Whois.yearsSince env d <? 1); [right|now left].
    eexists _, _. split; [reflexivity|]. split; [lia|now exists 6].
  - right. eexists _, _. split; [reflexivity|]. split; [lia|now exists 2].
Qed.

Lemma flagsAtMost_expiry expiresDate acc :
  flagsAtMost 15 acc (Whois.scoreExpiry env expiresDate acc).
Proof.
  unfold Whois.scoreExpiry. destruct expiresDate as [d|].
  - destruct (Whois.monthsUntil env d <? 12); [right|now left].
    eexists _, _. split; [reflexivity|]. split; [lia|now exists 3].
  - right. eexists _, _. split; [reflexivity|]. split; [lia|now exists 2].
Qed.

Lemma flagsAtMost_privacy info acc :
  flagsAtMost 20 acc (Whois.scorePrivacy env info acc).
Proof.
  unfold Whois.scorePrivacy. cbv zeta.
  destruct (_ || _); [right|now left].
  eexists _, _. split; [reflexivity|]. split; [lia|now exists 4].
Qed.

Lemma flagsAtMost_country info acc :
  flagsAtMost 10 acc (Whois.scoreCountry info acc).
Proof.
  unfold Whois.scoreCountry. destruct (info "country") as [country|];
    [|now left].
  destruct (_ && _); [right|now left].
  eexists _, _. split; [reflexivity|]. split; [lia|now exists 2].
Qed.

(** What one step does to the bounds that relate score and notes. *)
Lemma flagsAtMost_step most before after lo hi :
  0 <= most ->
  flagsAtMost most before after ->
  10 * Z.of_nat (length (snd before)) <= fst before <= hi ->
  (exists q, fst before = 5 * q) ->
  (length (snd before) <= lo)%nat ->
  10 * Z.of_nat (length (snd after)) <= fst after <= hi + most
  /\ (exists q, fst after = 5 * q)
  /\ (length (snd after) <= S lo)%nat.
Proof.
  intros Hm [->|(points & note & -> & Hp & [q Eq])] Hb [q0 E0] Hl.
  - split; [lia|]. split; [now exists q0|lia].
  - unfold Whois.flag; cbn [fst snd]. rewrite length_app; cbn [length].
    split; [lia|]. split; [exists (q0 + q); lia|lia].
Qed.

Lemma whois_accumulators created expires info :
  let acc :=
    Whois.scoreCountry info
      (Whois.scorePrivacy env info
         (Whois.scoreExpiry env expires
            (Whois.scoreCreation env created (0, [])))) in
  0 <= fst acc <= 75
  /\ (exists q, fst acc = 5 * q)
  /\ (length (snd acc) <= 4)%nat
  /\ 10 * Z.of_nat (length (snd acc)) <= fst acc
  /\ (snd acc = [] <-> fst acc = 0).
Proof.
  set (a0 := (0, @nil string)).
  set (a1 := Whois.scoreCreation env created a0).
  set (a2 := Whois.scoreExpiry env expires a1).
  set (a3 := Whois.scorePrivacy env info a2).
  set (a4 := Whois.scoreCountry info a3).
  cbv zeta.
  destruct (flagsAtMost_step 30 a0 a1 0 0 ltac:(lia)
              (flagsAtMost_creation created a0))
    as (B1 & Q1 & L1); [simpl; lia|now exists 0|simpl; lia|].
  destruct (flagsAtMost_step 15 a1 a2 1 30 ltac:(lia)
              (flagsAtMost_expiry expires a1) B1 Q1 L1) as (B2 & Q2 & L2).
  destruct (flagsAtMost_step 20 a2 a3 2 45 ltac:(lia)
              (flagsAtMost_privacy info a2) B2 Q2 L2) as (B3 & Q3 & L3).
  destruct (flagsAtMost_step 10 a3 a4 3 65 ltac:(lia)
              (flagsAtMost_country info a3) B3 Q3 L3) as (B4 & Q4 & L4).
  split; [clear - B4; clearbody a4; lia|].
  split; [exact Q4|]. split; [exact L4|].
  split; [clear - B4; clearbody a4; lia|].
  split.
  - intro Hn.
    assert (K : forall most before after,
               flagsAtMost most before after ->
               snd after = [] -> after = before).
    { intros most before after [->|(p & n & -> & _)] Hs; [reflexivity|].
      unfold Whois.flag in Hs; cbn [snd] in Hs.
      now destruct (snd before). }
    pose proof (K _ _ _ (flagsAtMost_country info a3) Hn) as E4.
    fold a4 in E4. rewrite E4 in Hn |- *.
    pose proof (K _ _ _ (flagsAtMost_privacy info a2) Hn) as E3.
    fold a3 in E3. rewrite E3 in Hn |- *.
    pose proof (K _ _ _ (flagsAtMost_expiry expires a1) Hn) as E2.
    fold a2 in E2. rewrite E2 in Hn |- *.
    pose proof (K _ _ _ (flagsAtMost_creation created a0) Hn) as E1.
    fold a1 in E1. now rewrite E1.
  - intro Hz. clear - B4 Hz. clearbody a4.
    destruct (snd a4) as [|n rest]; [reflexivity|].
    cbn [length] in B4. lia.
Qed.

(** X12. A successful WHOIS analysis scores between 0 and 75, a multiple
    of 5, and raises at most four notes; every note stands for at least
    10 points, so the score is 0 exactly when there is no note.  The 100
    against which the score is printed is never reached. *)
Theorem whois_score_between_0_and_75 url printed analysis
  (H : Whois.analyzeDomain env url = (printed, Whois.Analysed analysis)) :
  0 <= Whois.score analysis <= 75
  /\ (exists q, Whois.score analysis = 5 * q)
  /\ (length (Whois.notes analysis) <= 4)%nat
  /\ 10 * Z.of_nat (length (Whois.notes analysis)) <= Whois.score analysis
  /\ (Whois.notes analysis = [] <-> Whois.score analysis = 0).
Proof.
  unfold Whois.analyzeDomain in H.
  destruct (Whois.extractDomain env url) as [domain|]; [|discriminate].
  destruct (Whois.whois env domain) as [info|error]; [|discriminate].
  injection H as _ <-.
  exact (whois_accumulators
           (Whois.validDate env info Whois.creationDateKeys)
           (Whois.validDate env info Whois.expirationDateKeys) info).
Qed.

Lemma numbered_last i notes before d :
  notes <> [] ->
  last (before ++ Whois.numbered i notes) d
  = Whois.Stdout (" " ++ Js.showNat (i + length notes) ++ ". "
                  ++ last notes "").
Proof.
  revert i before. induction notes as [|note rest IH]; intros i before Hn;
    [contradiction|].
  destruct rest as [|note' rest'].
  - simpl. now rewrite last_last.
  - change (Whois.numbered i (note :: note' :: rest'))
      with (Whois.Stdout (" " ++ Js.showNat (i + 1) ++ ". " ++ note)
            :: Whois.numbered (S i) (note' :: rest')).
    change (last (note :: note' :: rest') "")
      with (last (note' :: rest') "").
    replace (i + length (note :: note' :: rest'))%nat
      with (S i + length (note' :: rest'))%nat by (simpl; lia).
    rewrite <- (IH (S i)
                  (before
                   ++ [Whois.Stdout
                         (" " ++ Js.showNat (i + 1) ++ ". " ++ note)])%list
                  ltac:(discriminate)).
    now rewrite <- app_assoc.
Qed.

(** X13. What the WHOIS front end prints last: for a successful analysis
    the line [문제 없음] exactly when the score is 0, and otherwise the
    last note under its number, which is the number of notes; for a
    failed one the error message, on the error stream. *)
Theorem whois_prints_no_problem_iff_score_zero input printed result
  (H : Whois.analyzeDomain env input = (printed, result)) :
  match result with
  | Whois.Analysed analysis =>
      (last (Whois.question env input) (Whois.Stderr "")
       = Whois.Stdout "문제 없음"
       <-> Whois.score analysis = 0)
      /\ (Whois.score analysis <> 0 ->
          last (Whois.question env input) (Whois.Stderr "")
          = Whois.Stdout
              (" " ++ Js.showNat (length (Whois.notes analysis)) ++ ". "
               ++ last (Whois.notes analysis) ""))
  | Whois.Error error =>
      last (Whois.question env input) (Whois.Stderr "") = Whois.Stderr error
  end.
Proof.
  unfold Whois.question. rewrite H.
  destruct result as [error|analysis].
  - rewrite !app_assoc. apply last_last.
  - destruct (whois_score_between_0_and_75 input printed analysis H)
      as (_ & _ & _ & _ & Hz).
    destruct (Whois.notes analysis) as [|note rest] eqn:En.
    + cbn [length Nat.ltb Nat.leb]. rewrite !app_assoc, last_last.
      split.
      * split; [intros _; now apply Hz|reflexivity].
      * intro Hs. contradiction Hs. now apply Hz.
    + cbn [Nat.ltb Nat.leb length].
      set (shown := Whois.numbered 0 (note :: rest)).
      change (Whois.Stdout "위험 요인: " :: shown)
        with ([Whois.Stdout "위험 요인: "] ++ shown)%list.
      rewrite !app_assoc.
      match goal with
      | |- (last (?before ++ shown)%list _ = _ <-> _) /\ _ =>
          pose proof (numbered_last 0 (note :: rest) before (Whois.Stderr "")
                        ltac:(discriminate)) as Hr
      end.
      fold shown in Hr. rewrite Hr. split.
      * split.
        -- intro Hl. simpl in Hl. discriminate Hl.
        -- intro Hs. apply Hz in Hs. discriminate Hs.
      * intros _. reflexivity.
Qed.

End WhoisProperties.

Lemma validDate_first_parsable_witness :
  Whois.validDate (toyPlatform (fun _ => Fulfilled youngRecord)) youngRecord
                  Whois.creationDateKeys = Some 19900
  /\ Whois.validDate (toyPlatform (fun _ => Fulfilled youngRecord))
                     youngRecord ["createdDate"; "updatedDate"] = None.
Proof.
  destruct (validDate_first_parsable
              (toyPlatform (fun _ => Fulfilled youngRecord)) youngRecord
              Whois.creationDateKeys) as [Hs _].
  destruct (validDate_first_parsable
              (toyPlatform (fun _ => Fulfilled youngRecord)) youngRecord
              ["createdDate"; "updatedDate"]) as [_ Hn].
  split.
  - apply Hs.
    exists ["createdDate"; "creationDate"; "registeredDate"],
      "Creation Date", ["Created On"], "19900".
    repeat split.
    intros k v [<-|[<-|[<-|[]]]] Hk; vm_compute in Hk; try discriminate.
    now injection Hk as <-.
  - apply Hn.
    intros key value [<-|[<-|[]]] Hk; vm_compute in Hk; try discriminate.
    now injection Hk as <-.
Defined.

Lemma whois_score_between_0_and_75_witness :
  exists printed analysis,
    Whois.analyzeDomain (toyPlatform (fun _ => Fulfilled youngRecord))
                        "shop.example.com"
    = (printed, Whois.Analysed analysis)
    /\ Whois.score analysis = 60
    /\ length (Whois.notes analysis) = 3%nat
    /\ 0 <= Whois.score analysis <= 75.
Proof.
  eexists _, _. split; [reflexivity|].
  split; [reflexivity|]. split; [reflexivity|].
  exact (proj1 (whois_score_between_0_and_75
                  (toyPlatform (fun _ => Fulfilled youngRecord))
                  "shop.example.com" _ _ eq_refl)).
Defined.

Lemma whois_prints_no_problem_iff_score_zero_witness :
  last (Whois.question (toyPlatform (fun _ => Fulfilled cleanRecord))
                       "old.example.com") (Whois.Stderr "")
  = Whois.Stdout "문제 없음"
  /\ last (Whois.question (toyPlatform (fun _ => Fulfilled youngRecord))
                          "shop.example.com") (Whois.Stderr "")
     = Whois.Stdout " 3. 등록자 국가가 위험 국가(RU)로 분류됨"
  /\ last (Whois.question (toyPlatform (fun _ => Rejected timedOut))
                          "old.example.com") (Whois.Stderr "")
     = Whois.Stderr "분석 중 오류 발생: query timed out"
  /\ last (Whois.question (toyPlatform (fun _ => Fulfilled cleanRecord))
                          "localhost") (Whois.Stderr "")
     = Whois.Stderr "유효하지 않은 URL입니다.".
Proof.
  repeat apply conj.
  - apply (whois_prints_no_problem_iff_score_zero
             (toyPlatform (fun _ => Fulfilled cleanRecord))
             "old.example.com" _ (Whois.Analysed _) eq_refl).
    reflexivity.
  - refine (proj2 (whois_prints_no_problem_iff_score_zero
                     (toyPlatform (fun _ => Fulfilled youngRecord))
                     "shop.example.com" _ (Whois.Analysed _) eq_refl) _).
    discriminate.
  - exact (whois_prints_no_problem_iff_score_zero
             (toyPlatform (fun _ => Rejected timedOut))
             "old.example.com" _ (Whois.Error _) eq_refl).
  - exact (whois_prints_no_problem_iff_score_zero
             (toyPlatform (fun _ => Fulfilled cleanRecord))
             "localhost" _ (Whois.Error _) eq_refl).
Defined.
